(** * TestHelpers.h: exception-based test macros and the test main function

    A shallow embedding of [TestHelpers.h].  Every macro of the header is a
    definition of the same name.  A macro argument that is an expression or a
    statement becomes a computation, the stringified argument ([#VAL1]) becomes
    a separate string, and the three location macros [__FILE__], [__LINE__]
    and [__FUNCTION__] become a [CallSite] argument. *)

From Stdlib Require Import String Ascii List ZArith Bool Lia DecimalString.
Import ListNotations.
Open Scope string_scope.
Open Scope Z_scope.

Set Implicit Arguments.

(** ** The exception that is thrown if a test fails *)

(** [class TestException]: four public data members, set by the constructor
    in the order of its parameters; the class has no base class. *)
Record TestException : Type := mkTestException
  { mFileName : string;
    mLineNumber : Z;
    mFunctionName : string;
    mMessage : string }.

(** The values of [__FILE__], [__LINE__] and [__FUNCTION__] where a macro is
    expanded. *)
Record CallSite : Type := mkCallSite
  { site_file : string;
    site_line : Z;
    site_function : string }.

(** [TestException(__FILE__, __LINE__, __FUNCTION__, msg)] *)
Definition TestException_at (site : CallSite) (msg : string) : TestException :=
  mkTestException (site_file site) (site_line site) (site_function site) msg.

(** ** Thrown objects and handler types *)

Definition ClassName := string.

(** What a [throw] expression can throw: a [TestException], or an object of
    any other type.  For the latter we keep the name of its dynamic type and
    the text its [what()] returns if the type descends from
    [std::exception] (the text is not looked at otherwise).  No class derives
    from [TestException]. *)
Inductive Thrown : Type :=
| ThrowTestException (exc : TestException)
| ThrowObject (cls : ClassName) (what : string).

(** The type named in a handler [catch (const T &)]: [TestException], or
    another type, given by its name. *)
Inductive ExcType : Type :=
| TestExceptionT
| ClassT (name : ClassName).

(** [#ExcClass]: the text of the type as written at the macro call. *)
Definition type_text (t : ExcType) : string :=
  match t with
  | TestExceptionT => "TestException"
  | ClassT name => name
  end.

Definition std_exception : ClassName := "std::exception".

(** ** The formatting facility ([fmt/format.h])

    Only the replacement field [{}] is modelled, which is all the header
    uses: each [{}] of the template is replaced by the next argument,
    arguments left over are ignored, and a template asking for more arguments
    than given, or holding a brace outside of [{}], is rejected
    ([fmt::format_error]). *)
Fixpoint fmt_format (template : string) (args : list string) : option string :=
  match template with
  | EmptyString => Some EmptyString
  | String c rest =>
      if Ascii.eqb c "{"%char then
        match rest with
        | String c' rest' =>
            if Ascii.eqb c' "}"%char then
              match args with
              | a :: args' => option_map (append a) (fmt_format rest' args')
              | [] => None
              end
            else None
        | EmptyString => None
        end
      else if Ascii.eqb c "}"%char then None
      else option_map (String c) (fmt_format rest args)
  end.

(** How a value is rendered by a [{}] field, and the comparison operators the
    macros apply to it.  C++ lets a type define each operator on its own; the
    three laws are the agreement between them that the built-in types have. *)
Class Value (V : Type) : Type :=
  { show : V -> string;
    op_eq : V -> V -> bool;
    op_ne : V -> V -> bool;
    op_lt : V -> V -> bool;
    op_gt : V -> V -> bool;
    op_le : V -> V -> bool;
    op_ge : V -> V -> bool;
    op_ne_eq : forall a b, op_ne a b = negb (op_eq a b);
    op_ge_lt : forall a b, op_ge a b = true -> op_lt a b = false;
    op_le_gt : forall a b, op_le a b = true -> op_gt a b = false }.

(** [int], printed in decimal. *)
Definition show_int (z : Z) : string := NilZero.string_of_int (Z.to_int z).

#[export, refine] Instance Value_int : Value Z :=
  { show := show_int;
    op_eq := Z.eqb;
    op_ne := fun a b => negb (Z.eqb a b);
    op_lt := Z.ltb;
    op_gt := Z.gtb;
    op_le := Z.leb;
    op_ge := Z.geb }.
Proof.
  - reflexivity.
  - intros a b H. apply Z.ltb_ge. apply Z.geb_le in H. lia.
  - intros a b H. rewrite Z.gtb_ltb. apply Z.ltb_ge. apply Z.leb_le in H. lia.
Defined.

(** [bool], printed as [true] and [false]; [false < true]. *)
Definition show_bool (b : bool) : string := if b then "true" else "false".

#[export, refine] Instance Value_bool : Value bool :=
  { show := show_bool;
    op_eq := Bool.eqb;
    op_ne := xorb;
    op_lt := fun a b => negb a && b;
    op_gt := fun a b => a && negb b;
    op_le := fun a b => negb a || b;
    op_ge := fun a b => a || negb b }.
Proof.
  - intros [] []; reflexivity.
  - intros [] []; simpl; congruence.
  - intros [] []; simpl; congruence.
Defined.

(** [std::string], printed as it is. *)
#[export, refine] Instance Value_string : Value string :=
  { show := fun s => s;
    op_eq := String.eqb;
    op_ne := fun a b => negb (String.eqb a b);
    op_lt := String.ltb;
    op_gt := fun a b => String.ltb b a;
    op_le := String.leb;
    op_ge := fun a b => String.leb b a }.
Proof.
  - reflexivity.
  - intros a b. unfold String.leb, String.ltb.
    rewrite (String.compare_antisym b a).
    destruct (String.compare a b); simpl; congruence.
  - intros a b. unfold String.leb, String.ltb.
    rewrite (String.compare_antisym a b).
    destruct (String.compare b a); simpl; congruence.
Defined.

(** The newline character of the C++ string literals. *)
Definition nl : string := String (ascii_of_nat 10) EmptyString.

(** ** Computations: program state, standard output and exceptions *)

(** How the evaluation of an expression or statement ends. *)
Inductive Outcome (A : Type) : Type :=
| Returned (a : A)
| Raised (x : Thrown).

Arguments Returned {A} a.
Arguments Raised {A} x.

(** A run: the program state it leaves, the text it wrote to the standard
    output, and how it ended. *)
Record Run (S A : Type) : Type := mkRun
  { final : S;
    printed : string;
    outcome : Outcome A }.

Section Computations.

(** The state of the program under test (its variables, its heap). *)
Variable S : Type.

(** [derives d b]: class [d] has [b] as a public base class, directly or
    not, in the program under test. *)
Variable derives : ClassName -> ClassName -> bool.

Definition M (A : Type) : Type := S -> Run S A.

Definition ret {A} (a : A) : M A :=
  fun s => mkRun s "" (Returned a).

Definition bind {A B} (m : M A) (k : A -> M B) : M B :=
  fun s =>
    let r := m s in
    match outcome r with
    | Returned a =>
        let r' := k a (final r) in
        mkRun (final r') (printed r ++ printed r') (outcome r')
    | Raised x => mkRun (final r) (printed r) (Raised x)
    end.

(** [throw x;] *)
Definition throw {A} (x : Thrown) : M A :=
  fun s => mkRun s "" (Raised x).

(** Writing a text to the standard output. *)
Definition write (text : string) : M unit :=
  fun s => mkRun s text (Returned tt).

(** [fmt::format(template, args...)] as an expression. *)
Definition format (template : string) (args : list string) : M string :=
  match fmt_format template args with
  | Some text => ret text
  | None => throw (ThrowObject "fmt::format_error" "invalid format string")
  end.

(** [fmt::print(template, args...);] *)
Definition print (template : string) (args : list string) : M unit :=
  bind (format template args) write.

(** *** try blocks *)

(** [is_a d c]: a handler for class [c] accepts an object whose dynamic
    type is [d]. *)
Definition is_a (d c : ClassName) : bool :=
  String.eqb d c || derives d c.

(** The three forms of handler the header uses.  The body of a handler for
    [TestException] gets the caught object, the body of a handler for
    another class gets the object's [what()]. *)
Inductive Handler (A : Type) : Type :=
| Catch_TestException (body : TestException -> M A)
| Catch_class (c : ClassName) (body : string -> M A)
| Catch_all (body : M A).

(** [catch (const T &) { body }] for a type given as a macro argument. *)
Definition Catch_type {A} (t : ExcType) (body : M A) : Handler A :=
  match t with
  | TestExceptionT => Catch_TestException (fun _ => body)
  | ClassT c => Catch_class c (fun _ => body)
  end.

(** Whether a handler accepts a thrown object, and the body to run then. *)
Definition handles {A} (h : Handler A) (x : Thrown) : option (M A) :=
  match h, x with
  | Catch_TestException body, ThrowTestException exc => Some (body exc)
  | Catch_TestException _, ThrowObject _ _ => None
  | Catch_class _ _, ThrowTestException _ => None
  | Catch_class c body, ThrowObject d what =>
      if is_a d c then Some (body what) else None
  | Catch_all body, _ => Some body
  end.

(** The handlers are tried in the order they are written; the result is the
    position of the first one that accepts the object, with its body. *)
Fixpoint dispatch {A} (hs : list (Handler A)) (x : Thrown) : option (nat * M A) :=
  match hs with
  | [] => None
  | h :: hs' =>
      match handles h x with
      | Some body => Some (O, body)
      | None =>
          match dispatch hs' x with
          | Some (i, body) => Some (Datatypes.S i, body)
          | None => None
          end
      end
  end.

(** The position of the handler that takes the object, if any does. *)
Definition selected {A} (hs : list (Handler A)) (x : Thrown) : option nat :=
  option_map fst (dispatch hs x).

(** [try { block } catch ... { } catch ... { }]: an exception leaving
    [block] goes to the first handler accepting it, an exception leaving a
    handler is not offered to the handlers of the same try block. *)
Definition try_catch {A} (block : M A) (hs : list (Handler A)) : M A :=
  fun s =>
    let r := block s in
    match outcome r with
    | Returned _ => r
    | Raised x =>
        match dispatch hs x with
        | Some (_, body) =>
            let r' := body (final r) in
            mkRun (final r') (printed r ++ printed r') (outcome r')
        | None => r
        end
    end.

End Computations.

Arguments ret {S A} a.
Arguments throw {S A} x.
Arguments write {S} text.
Arguments format {S} template args.
Arguments print {S} template args.
Arguments Catch_TestException {S A} body.
Arguments Catch_class {S A} c body.
Arguments Catch_all {S A} body.
Arguments Catch_type {S A} t body.

Declare Scope cpp_scope.
Delimit Scope cpp_scope with cpp.
Notation "x <- m ;; k" := (bind m (fun x => k))
  (at level 100, m at next level, right associativity) : cpp_scope.
Notation "m ;; k" := (bind m (fun _ => k))
  (at level 100, right associativity) : cpp_scope.
Open Scope cpp_scope.

(** ** The macros *)

Section Macros.

Variable S : Type.
Variable derives : ClassName -> ClassName -> bool.

(** [throw TestException(__FILE__, __LINE__, __FUNCTION__, fmt::format(template, args...))] *)
Definition throw_TestException {A} (site : CallSite) (template : string)
    (args : list string) : M S A :=
  msg <- format template args;;
  throw (ThrowTestException (TestException_at site msg)).

(** [TEST_EQUAL(VAL1, VAL2)]; [text1] and [text2] are [#VAL1] and [#VAL2]. *)
Definition TEST_EQUAL {V} `{Value V} (site : CallSite) (text1 text2 : string)
    (VAL1 VAL2 : M S V) : M S unit :=
  v1 <- VAL1;;
  v2 <- VAL2;;
  if op_ne v1 v2 then
    throw_TestException site
      ("Equality test failed: {} != {} " ++ nl ++ "{} = {}" ++ nl ++ "{} = {}")
      [text1; text2; text1; show v1; text2; show v2]
  else ret tt.

(** [TEST_EQUAL_MSG(VAL1, VAL2, MSG)]: [MSG] stands among the arguments of
    [fmt::format], inside the [if]. *)
Definition TEST_EQUAL_MSG {V W} `{Value V} `{Value W} (site : CallSite)
    (text1 text2 : string) (VAL1 VAL2 : M S V) (MSG : M S W) : M S unit :=
  v1 <- VAL1;;
  v2 <- VAL2;;
  if op_ne v1 v2 then
    m <- MSG;;
    throw_TestException site
      ("Equality test failed: {} != {} ({})" ++ nl ++ "{} = {}" ++ nl ++ "{} = {}")
      [text1; text2; show m; text1; show v1; text2; show v2]
  else ret tt.

(** [TEST_NOTEQUAL(VAL1, VAL2)] *)
Definition TEST_NOTEQUAL {V} `{Value V} (site : CallSite) (text1 text2 : string)
    (VAL1 VAL2 : M S V) : M S unit :=
  v1 <- VAL1;;
  v2 <- VAL2;;
  if op_eq v1 v2 then
    throw_TestException site
      "Inequality test failed: {} == {} (== {})"
      [text1; text2; show v1]
  else ret tt.

(** [TEST_TRUE(X)] is [TEST_EQUAL(X, true)]. *)
Definition TEST_TRUE (site : CallSite) (text : string) (X : M S bool) : M S unit :=
  TEST_EQUAL site text "true" X (ret true).

(** [TEST_FALSE(X)] is [TEST_EQUAL(X, false)]. *)
Definition TEST_FALSE (site : CallSite) (text : string) (X : M S bool) : M S unit :=
  TEST_EQUAL site text "false" X (ret false).

(** [TEST_GREATER_THAN_OR_EQUAL(Stmt, Val)] *)
Definition TEST_GREATER_THAN_OR_EQUAL {V} `{Value V} (site : CallSite)
    (text1 text2 : string) (Stmt Val : M S V) : M S unit :=
  v1 <- Stmt;;
  v2 <- Val;;
  if op_lt v1 v2 then
    throw_TestException site
      ("Comparison failed: {} < {}" ++ nl ++ "{} = {}" ++ nl ++ "{} = {}")
      [text1; text2; text1; show v1; text2; show v2]
  else ret tt.

(** [TEST_LESS_THAN_OR_EQUAL(Stmt, Val)] *)
Definition TEST_LESS_THAN_OR_EQUAL {V} `{Value V} (site : CallSite)
    (text1 text2 : string) (Stmt Val : M S V) : M S unit :=
  v1 <- Stmt;;
  v2 <- Val;;
  if op_gt v1 v2 then
    throw_TestException site
      ("Comparison failed: {} > {}" ++ nl ++ "{} = {}" ++ nl ++ "{} = {}")
      [text1; text2; text1; show v1; text2; show v2]
  else ret tt.

(** The three handlers of [TEST_THROWS], in the order of the header.  The
    second one formats the caught [exc] itself, which writes its [what()]. *)
Definition TEST_THROWS_handlers (site : CallSite) (ExcClass : ExcType)
    : list (Handler S unit) :=
  [ Catch_type ExcClass (ret tt);
    Catch_class std_exception (fun exc_what =>
      throw_TestException site
        "An unexpected std::exception descendant was thrown, was expecting type {}. Exception message is: {}"
        [type_text ExcClass; exc_what]);
    Catch_all
      (throw_TestException site
         "An unexpected unknown exception object was thrown, was expecting type {}"
         [type_text ExcClass]) ].

(** [TEST_THROWS(Stmt, ExcClass)]: the [throw] that follows [Stmt] stands
    inside the try block. *)
Definition TEST_THROWS {A} (site : CallSite) (Stmt : M S A) (ExcClass : ExcType)
    : M S unit :=
  try_catch derives
    (Stmt;;
     throw_TestException site
       "Failed to throw an exception of type {}"
       [type_text ExcClass])
    (TEST_THROWS_handlers site ExcClass).

(** [TEST_THROWS_ANY(Stmt)] *)
Definition TEST_THROWS_ANY {A} (site : CallSite) (Stmt : M S A) : M S unit :=
  try_catch derives
    (Stmt;;
     throw (ThrowTestException
              (TestException_at site "Failed to throw an exception of any type")))
    [ Catch_TestException (fun exc => throw (ThrowTestException exc));
      Catch_all (ret tt) ].

(** [TEST_FAIL(MSG)] *)
Definition TEST_FAIL {A} (site : CallSite) (MSG : M S string) : M S A :=
  msg <- MSG;;
  throw (ThrowTestException (TestException_at site msg)).

(** A test code that is a sequence of calls [test1(); test2(); ...]. *)
Fixpoint test_sequence (tests : list (M S unit)) : M S unit :=
  match tests with
  | [] => ret tt
  | test :: rest => test;; test_sequence rest
  end.

(** The three handlers of the try block of [main].  A handler leaves
    [main] with [return 1]: it yields [Some] exit status. *)
Definition TEST_MAIN_handlers : list (Handler S (option Z)) :=
  [ Catch_TestException (fun exc =>
      print ("Test has failed at file {}, line {}, function {}:" ++ nl ++ "{}" ++ nl)
        [mFileName exc; show_int (mLineNumber exc); mFunctionName exc; mMessage exc];;
      ret (Some 1));
    Catch_class std_exception (fun exc_what =>
      print ("Test has failed, an exception was thrown: {}" ++ nl) [exc_what];;
      ret (Some 1));
    Catch_all
      (print ("Test has failed, an unhandled exception was thrown." ++ nl) [];;
       ret (Some 1)) ].

(** [IMPLEMENT_TEST_MAIN(TestName, TestCode)]: the function [main] it
    defines, returning the exit status.  The try block yields [None] when
    control goes on to the statements after it. *)
Definition IMPLEMENT_TEST_MAIN (TestName : string) (TestCode : M S unit) : M S Z :=
  print ("Test started: {}" ++ nl) [TestName];;
  returned <- try_catch derives (TestCode;; ret None) TEST_MAIN_handlers;;
  match returned with
  | Some status => ret status
  | None =>
      print ("Test finished" ++ nl) [];;
      ret 0
  end.

End Macros.

Arguments TEST_EQUAL {S V _} site text1 text2 VAL1 VAL2.
Arguments TEST_EQUAL_MSG {S V W _ _} site text1 text2 VAL1 VAL2 MSG.
Arguments TEST_NOTEQUAL {S V _} site text1 text2 VAL1 VAL2.
Arguments TEST_TRUE {S} site text X.
Arguments TEST_FALSE {S} site text X.
Arguments TEST_GREATER_THAN_OR_EQUAL {S V _} site text1 text2 Stmt Val.
Arguments TEST_LESS_THAN_OR_EQUAL {S V _} site text1 text2 Stmt Val.
Arguments TEST_FAIL {S A} site MSG.
Arguments test_sequence {S} tests.
Arguments throw_TestException {S A} site template args.
Arguments TEST_THROWS_handlers {S} site ExcClass.
Arguments TEST_MAIN_handlers {S}.

(** ** A class hierarchy and some expressions for the examples *)

(** Direct public bases of the exception classes of the standard library
    (and of [fmt::format_error]), as pairs (class, base). *)
Definition std_classes : list (ClassName * ClassName) :=
  [ ("std::logic_error", "std::exception");
    ("std::runtime_error", "std::exception");
    ("std::invalid_argument", "std::logic_error");
    ("std::domain_error", "std::logic_error");
    ("std::length_error", "std::logic_error");
    ("std::out_of_range", "std::logic_error");
    ("std::future_error", "std::logic_error");
    ("std::range_error", "std::runtime_error");
    ("std::overflow_error", "std::runtime_error");
    ("std::underflow_error", "std::runtime_error");
    ("std::regex_error", "std::runtime_error");
    ("std::system_error", "std::runtime_error");
    ("std::ios_base::failure", "std::system_error");
    ("std::filesystem::filesystem_error", "std::system_error");
    ("fmt::format_error", "std::runtime_error");
    ("std::bad_alloc", "std::exception");
    ("std::bad_array_new_length", "std::bad_alloc");
    ("std::bad_cast", "std::exception");
    ("std::bad_any_cast", "std::bad_cast");
    ("std::bad_typeid", "std::exception");
    ("std::bad_exception", "std::exception");
    ("std::bad_function_call", "std::exception");
    ("std::bad_weak_ptr", "std::exception");
    ("std::bad_optional_access", "std::exception");
    ("std::bad_variant_access", "std::exception") ].

(** [b] is reached from [d] in at most [fuel] steps to a direct base. *)
Fixpoint reaches (fuel : nat) (classes : list (ClassName * ClassName))
    (d b : ClassName) : bool :=
  match fuel with
  | O => false
  | Datatypes.S fuel' =>
      existsb (fun '(d', b') =>
                 String.eqb d d' && (String.eqb b' b || reaches fuel' classes b' b))
              classes
  end.

Definition std_derives : ClassName -> ClassName -> bool :=
  reaches (List.length std_classes) std_classes.

(** [i++] on a program whose state is one [int] variable [i]. *)
Definition post_increment : M Z Z :=
  fun i => mkRun (i + 1) "" (Returned i).

(** A call of a function that writes [text] and returns [v]. *)
Definition say {S V} (text : string) (v : V) : M S V :=
  write text;; ret v.

(** [needle] occurs in [text]. *)
Definition contains (needle text : string) : Prop :=
  exists before after, text = before ++ needle ++ after.

(** The call sites of the examples. *)
Definition site_outer : CallSite := mkCallSite "SuiteTest.cpp" 42 "testOuter".
Definition site_inner : CallSite := mkCallSite "SuiteTest.cpp" 17 "testInner".

(** What a run leaves behind: the state and the output. *)
Definition effects {S A} (r : Run S A) : S * string := (final r, printed r).

(** The macros that compare two operands, the call site and the text of the
    operands given. *)
Definition comparison_macros {S V} `{Value V} (site : CallSite)
    (text1 text2 : string) : list (M S V -> M S V -> M S unit) :=
  [ TEST_EQUAL site text1 text2;
    TEST_NOTEQUAL site text1 text2;
    TEST_GREATER_THAN_OR_EQUAL site text1 text2;
    TEST_LESS_THAN_OR_EQUAL site text1 text2 ].

(** The same with [TEST_EQUAL_MSG], its third argument given. *)
Definition two_operand_macros {S V W} `{Value V} `{Value W} (site : CallSite)
    (text1 text2 : string) (MSG : M S W) : list (M S V -> M S V -> M S unit) :=
  (fun VAL1 VAL2 => TEST_EQUAL_MSG site text1 text2 VAL1 VAL2 MSG)
  :: comparison_macros site text1 text2.

(** * Properties *)

(** ** Strings *)

Lemma append_nil_r (s : string) : s ++ "" = s.
Proof. induction s as [|c s IH]; simpl; [reflexivity | now rewrite IH]. Qed.

Lemma append_assoc (s1 s2 s3 : string) : (s1 ++ s2) ++ s3 = s1 ++ (s2 ++ s3).
Proof. induction s1 as [|c s1 IH]; simpl; [reflexivity | now rewrite IH]. Qed.

Lemma contains_refl (x : string) : contains x x.
Proof. exists "", "". simpl. now rewrite append_nil_r. Qed.

Lemma contains_prefix (x rest : string) : contains x (x ++ rest).
Proof. now exists "", rest. Qed.

Lemma contains_skip (x before text : string) :
  contains x text -> contains x (before ++ text).
Proof.
  intros (b & a & ->). exists (before ++ b), a. now rewrite append_assoc.
Qed.

(** Walks along a text written [s1 ++ s2 ++ ...] to the place of the needle. *)
Ltac find_in_text :=
  solve [ repeat first [ apply contains_refl
                       | apply contains_prefix
                       | apply contains_skip ] ].

(** ** Runs of [bind] and [try_catch] *)

Section RunLemmas.

Variable S : Type.
Variable derives : ClassName -> ClassName -> bool.

Lemma run_bind_returned {A B} (m : M S A) (k : A -> M S B) s s1 o1 a s2 o2 r :
  m s = mkRun s1 o1 (Returned a) ->
  k a s1 = mkRun s2 o2 r ->
  bind m k s = mkRun s2 (o1 ++ o2) r.
Proof. intros Hm Hk. unfold bind. rewrite Hm. simpl. now rewrite Hk. Qed.

Lemma run_bind_raised {A B} (m : M S A) (k : A -> M S B) s s1 o1 x :
  m s = mkRun s1 o1 (Raised x) ->
  bind m k s = mkRun s1 o1 (Raised x).
Proof. intros Hm. unfold bind. now rewrite Hm. Qed.

Lemma run_ret {A} (a : A) (s : S) : ret a s = mkRun s "" (Returned a).
Proof. reflexivity. Qed.

Lemma run_throw_TestException {A} site template args text (s : S) :
  fmt_format template args = Some text ->
  @throw_TestException S A site template args s
  = mkRun s "" (Raised (ThrowTestException (TestException_at site text))).
Proof. intros H. unfold throw_TestException, format, bind. now rewrite H. Qed.

Lemma run_print template args text (s : S) :
  fmt_format template args = Some text ->
  print template args s = mkRun s text (Returned tt).
Proof. intros H. unfold print, format, bind. now rewrite H. Qed.

Lemma run_try_returned {A} (block : M S A) hs s s1 o1 a :
  block s = mkRun s1 o1 (Returned a) ->
  try_catch derives block hs s = mkRun s1 o1 (Returned a).
Proof. intros H. unfold try_catch. now rewrite H. Qed.

Lemma run_try_caught {A} (block : M S A) hs s s1 o1 x i body s2 o2 r :
  block s = mkRun s1 o1 (Raised x) ->
  dispatch derives hs x = Some (i, body) ->
  body s1 = mkRun s2 o2 r ->
  try_catch derives block hs s = mkRun s2 (o1 ++ o2) r.
Proof.
  intros Hb Hd Hh. unfold try_catch. rewrite Hb. simpl. rewrite Hd.
  now rewrite Hh.
Qed.

End RunLemmas.

(** ** The messages *)

Lemma format_equal t1 t2 v1 v2 :
  fmt_format ("Equality test failed: {} != {} " ++ nl ++ "{} = {}" ++ nl ++ "{} = {}")
             [t1; t2; t1; v1; t2; v2]
  = Some ("Equality test failed: " ++ t1 ++ " != " ++ t2 ++ " " ++ nl
          ++ t1 ++ " = " ++ v1 ++ nl ++ t2 ++ " = " ++ v2).
Proof. simpl. now rewrite ?append_nil_r. Qed.

Lemma format_equal_msg t1 t2 m v1 v2 :
  fmt_format ("Equality test failed: {} != {} ({})" ++ nl ++ "{} = {}" ++ nl ++ "{} = {}")
             [t1; t2; m; t1; v1; t2; v2]
  = Some ("Equality test failed: " ++ t1 ++ " != " ++ t2 ++ " (" ++ m ++ ")" ++ nl
          ++ t1 ++ " = " ++ v1 ++ nl ++ t2 ++ " = " ++ v2).
Proof. simpl. now rewrite ?append_nil_r. Qed.

Lemma format_notequal t1 t2 v1 :
  fmt_format "Inequality test failed: {} == {} (== {})" [t1; t2; v1]
  = Some ("Inequality test failed: " ++ t1 ++ " == " ++ t2 ++ " (== " ++ v1 ++ ")").
Proof. simpl. now rewrite ?append_nil_r. Qed.

Lemma format_less t1 t2 v1 v2 :
  fmt_format ("Comparison failed: {} < {}" ++ nl ++ "{} = {}" ++ nl ++ "{} = {}")
             [t1; t2; t1; v1; t2; v2]
  = Some ("Comparison failed: " ++ t1 ++ " < " ++ t2 ++ nl
          ++ t1 ++ " = " ++ v1 ++ nl ++ t2 ++ " = " ++ v2).
Proof. simpl. now rewrite ?append_nil_r. Qed.

Lemma format_greater t1 t2 v1 v2 :
  fmt_format ("Comparison failed: {} > {}" ++ nl ++ "{} = {}" ++ nl ++ "{} = {}")
             [t1; t2; t1; v1; t2; v2]
  = Some ("Comparison failed: " ++ t1 ++ " > " ++ t2 ++ nl
          ++ t1 ++ " = " ++ v1 ++ nl ++ t2 ++ " = " ++ v2).
Proof. simpl. now rewrite ?append_nil_r. Qed.

Lemma format_failed_to_throw t :
  fmt_format "Failed to throw an exception of type {}" [t]
  = Some ("Failed to throw an exception of type " ++ t).
Proof. simpl. now rewrite ?append_nil_r. Qed.

Lemma format_unexpected_std t w :
  fmt_format "An unexpected std::exception descendant was thrown, was expecting type {}. Exception message is: {}" [t; w]
  = Some ("An unexpected std::exception descendant was thrown, was expecting type "
          ++ t ++ ". Exception message is: " ++ w).
Proof. simpl. now rewrite ?append_nil_r. Qed.

Lemma format_unexpected_unknown t :
  fmt_format "An unexpected unknown exception object was thrown, was expecting type {}" [t]
  = Some ("An unexpected unknown exception object was thrown, was expecting type " ++ t).
Proof. simpl. now rewrite ?append_nil_r. Qed.

Lemma format_started name :
  fmt_format ("Test started: {}" ++ nl) [name] = Some ("Test started: " ++ name ++ nl).
Proof. simpl. now rewrite ?append_nil_r. Qed.

Lemma format_failed_at f l fn m :
  fmt_format ("Test has failed at file {}, line {}, function {}:" ++ nl ++ "{}" ++ nl)
             [f; l; fn; m]
  = Some ("Test has failed at file " ++ f ++ ", line " ++ l ++ ", function " ++ fn
          ++ ":" ++ nl ++ m ++ nl).
Proof. simpl. now rewrite ?append_nil_r. Qed.

Lemma format_exception_thrown w :
  fmt_format ("Test has failed, an exception was thrown: {}" ++ nl) [w]
  = Some ("Test has failed, an exception was thrown: " ++ w ++ nl).
Proof. simpl. now rewrite ?append_nil_r. Qed.

Lemma format_unhandled :
  fmt_format ("Test has failed, an unhandled exception was thrown." ++ nl) []
  = Some ("Test has failed, an unhandled exception was thrown." ++ nl).
Proof. reflexivity. Qed.

Lemma format_finished :
  fmt_format ("Test finished" ++ nl) [] = Some ("Test finished" ++ nl).
Proof. reflexivity. Qed.

(** ** The comparison macros, run on operands that return *)

Section TwoOperands.

Variable S : Type.
Context {V : Type} `{Value V}.
Variables (site : CallSite) (text1 text2 : string).
Variables (VAL1 VAL2 : M S V).
Variables (s s1 s2 : S) (o1 o2 : string) (a b : V).
Hypothesis run1 : VAL1 s = mkRun s1 o1 (Returned a).
Hypothesis run2 : VAL2 s1 = mkRun s2 o2 (Returned b).

Lemma run_bind2 {B} (k : V -> V -> M S B) s3 o3 r :
  k a b s2 = mkRun s3 o3 r ->
  (v1 <- VAL1;; v2 <- VAL2;; k v1 v2) s = mkRun s3 (o1 ++ o2 ++ o3) r.
Proof.
  intros Hk. eapply run_bind_returned; [exact run1|].
  eapply run_bind_returned; [exact run2|exact Hk].
Qed.

Ltac run_operands unfolding :=
  unfolding;
  rewrite <- (append_nil_r o2) at 1;
  apply run_bind2;
  match goal with
  | |- context [if ?c then _ else _] => destruct c
  end;
  [ apply run_throw_TestException | reflexivity ].

Lemma TEST_EQUAL_run :
  TEST_EQUAL site text1 text2 VAL1 VAL2 s
  = mkRun s2 (o1 ++ o2)
      (if op_ne a b then
         Raised (ThrowTestException (TestException_at site
           ("Equality test failed: " ++ text1 ++ " != " ++ text2 ++ " " ++ nl
            ++ text1 ++ " = " ++ show a ++ nl ++ text2 ++ " = " ++ show b)))
       else Returned tt).
Proof. run_operands ltac:(unfold TEST_EQUAL). apply format_equal. Qed.

Lemma TEST_NOTEQUAL_run :
  TEST_NOTEQUAL site text1 text2 VAL1 VAL2 s
  = mkRun s2 (o1 ++ o2)
      (if op_eq a b then
         Raised (ThrowTestException (TestException_at site
           ("Inequality test failed: " ++ text1 ++ " == " ++ text2
            ++ " (== " ++ show a ++ ")")))
       else Returned tt).
Proof. run_operands ltac:(unfold TEST_NOTEQUAL). apply format_notequal. Qed.

Lemma TEST_GREATER_THAN_OR_EQUAL_run :
  TEST_GREATER_THAN_OR_EQUAL site text1 text2 VAL1 VAL2 s
  = mkRun s2 (o1 ++ o2)
      (if op_lt a b then
         Raised (ThrowTestException (TestException_at site
           ("Comparison failed: " ++ text1 ++ " < " ++ text2 ++ nl
            ++ text1 ++ " = " ++ show a ++ nl ++ text2 ++ " = " ++ show b)))
       else Returned tt).
Proof. run_operands ltac:(unfold TEST_GREATER_THAN_OR_EQUAL). apply format_less. Qed.

Lemma TEST_LESS_THAN_OR_EQUAL_run :
  TEST_LESS_THAN_OR_EQUAL site text1 text2 VAL1 VAL2 s
  = mkRun s2 (o1 ++ o2)
      (if op_gt a b then
         Raised (ThrowTestException (TestException_at site
           ("Comparison failed: " ++ text1 ++ " > " ++ text2 ++ nl
            ++ text1 ++ " = " ++ show a ++ nl ++ text2 ++ " = " ++ show b)))
       else Returned tt).
Proof. run_operands ltac:(unfold TEST_LESS_THAN_OR_EQUAL). apply format_greater. Qed.

(** With a message: [MSG] runs after both operands, and only when they
    differ. *)
Lemma TEST_EQUAL_MSG_run {W} `{Value W} (MSG : M S W) :
  TEST_EQUAL_MSG site text1 text2 VAL1 VAL2 MSG s
  = if op_ne a b then
      let r := MSG s2 in
      mkRun (final r) (o1 ++ o2 ++ printed r)
        (match outcome r with
         | Returned m =>
             Raised (ThrowTestException (TestException_at site
               ("Equality test failed: " ++ text1 ++ " != " ++ text2
                ++ " (" ++ show m ++ ")" ++ nl
                ++ text1 ++ " = " ++ show a ++ nl ++ text2 ++ " = " ++ show b)))
         | Raised x => Raised x
         end)
    else mkRun s2 (o1 ++ o2) (Returned tt).
Proof.
  unfold TEST_EQUAL_MSG. destruct (op_ne a b) eqn:Hne.
  - apply run_bind2. rewrite Hne.
    destruct (MSG s2) as [s3 o3 [m|x]] eqn:Hm; simpl.
    + rewrite <- (append_nil_r o3) at 1.
      eapply run_bind_returned; [exact Hm|].
      apply run_throw_TestException, format_equal_msg.
    + now apply run_bind_raised.
  - rewrite <- (append_nil_r o2) at 1. apply run_bind2. now rewrite Hne.
Qed.

End TwoOperands.

(** ** TEST_EQUAL *)

(** C7: for operands evaluating to values [a] and [b] of one comparable type,
    [TEST_EQUAL] returns normally when [a == b]; when [a != b] it throws a
    [TestException] made at the call site whose message contains the text of
    both operand expressions and both evaluated values. *)
Theorem TEST_EQUAL_correct (S V : Type) `{Value V} (site : CallSite)
    (text1 text2 : string) (VAL1 VAL2 : M S V)
    (s s1 s2 : S) (o1 o2 : string) (a b : V) :
  VAL1 s = mkRun s1 o1 (Returned a) ->
  VAL2 s1 = mkRun s2 o2 (Returned b) ->
  (op_eq a b = true ->
   TEST_EQUAL site text1 text2 VAL1 VAL2 s = mkRun s2 (o1 ++ o2) (Returned tt))
  /\
  (op_ne a b = true ->
   exists msg,
     TEST_EQUAL site text1 text2 VAL1 VAL2 s
     = mkRun s2 (o1 ++ o2) (Raised (ThrowTestException
          (mkTestException (site_file site) (site_line site)
             (site_function site) msg)))
     /\ contains text1 msg /\ contains text2 msg
     /\ contains (show a) msg /\ contains (show b) msg).
Proof.
  intros H1 H2. rewrite (TEST_EQUAL_run site text1 text2 _ _ _ H1 H2). split.
  - intros Heq. rewrite op_ne_eq, Heq. reflexivity.
  - intros Hne. rewrite Hne. eexists. split; [reflexivity|].
    repeat split; find_in_text.
Qed.

Lemma TEST_EQUAL_correct_witness :
  TEST_EQUAL site_outer "i++" "0" post_increment (ret 0) 0
  = mkRun 1 "" (Returned tt)
  /\
  exists msg,
    TEST_EQUAL site_outer "i++" "1" post_increment (ret 1) 0
    = mkRun 1 "" (Raised (ThrowTestException
          (mkTestException "SuiteTest.cpp" 42 "testOuter" msg)))
    /\ contains "i++" msg /\ contains "1" msg
    /\ contains (show 0) msg /\ contains (show 1) msg.
Proof.
  split.
  - apply (proj1 (TEST_EQUAL_correct site_outer "i++" "0" post_increment (ret 0) 0
                   (s1 := 1) (s2 := 1) (o1 := "") (o2 := "") (a := 0) (b := 0)
                   eq_refl eq_refl)).
    reflexivity.
  - apply (proj2 (TEST_EQUAL_correct site_outer "i++" "1" post_increment (ret 1) 0
                   (s1 := 1) (s2 := 1) (o1 := "") (o2 := "") (a := 0) (b := 1)
                   eq_refl eq_refl)).
    reflexivity.
Defined.

(** ** TEST_GREATER_THAN_OR_EQUAL and TEST_LESS_THAN_OR_EQUAL *)

(** C9: for operands evaluating to ordered values [a] and [b],
    [TEST_GREATER_THAN_OR_EQUAL] returns normally when [a >= b] and throws a
    [TestException] when [a < b], whose message reports [Stmt < Val] by the
    text of the two expressions and contains both evaluated values;
    [TEST_LESS_THAN_OR_EQUAL] returns normally when [a <= b] and throws when
    [a > b], reporting [Stmt > Val] in the same way. *)
Theorem TEST_ordering_correct (S V : Type) `{Value V} (site : CallSite)
    (text1 text2 : string) (Stmt Val : M S V)
    (s s1 s2 : S) (o1 o2 : string) (a b : V) :
  Stmt s = mkRun s1 o1 (Returned a) ->
  Val s1 = mkRun s2 o2 (Returned b) ->
  (op_ge a b = true ->
   TEST_GREATER_THAN_OR_EQUAL site text1 text2 Stmt Val s
   = mkRun s2 (o1 ++ o2) (Returned tt))
  /\
  (op_lt a b = true ->
   exists msg,
     TEST_GREATER_THAN_OR_EQUAL site text1 text2 Stmt Val s
     = mkRun s2 (o1 ++ o2) (Raised (ThrowTestException
          (mkTestException (site_file site) (site_line site)
             (site_function site) msg)))
     /\ contains (text1 ++ " < " ++ text2) msg
     /\ contains (show a) msg /\ contains (show b) msg)
  /\
  (op_le a b = true ->
   TEST_LESS_THAN_OR_EQUAL site text1 text2 Stmt Val s
   = mkRun s2 (o1 ++ o2) (Returned tt))
  /\
  (op_gt a b = true ->
   exists msg,
     TEST_LESS_THAN_OR_EQUAL site text1 text2 Stmt Val s
     = mkRun s2 (o1 ++ o2) (Raised (ThrowTestException
          (mkTestException (site_file site) (site_line site)
             (site_function site) msg)))
     /\ contains (text1 ++ " > " ++ text2) msg
     /\ contains (show a) msg /\ contains (show b) msg).
Proof.
  intros H1 H2.
  rewrite (TEST_GREATER_THAN_OR_EQUAL_run site text1 text2 _ _ _ H1 H2).
  rewrite (TEST_LESS_THAN_OR_EQUAL_run site text1 text2 _ _ _ H1 H2).
  repeat apply conj.
  - intros Hge. now rewrite (op_ge_lt _ _ Hge).
  - intros Hlt. rewrite Hlt. eexists. split; [reflexivity|]. repeat split.
    + exists "Comparison failed: ". eexists.
      rewrite !append_assoc. reflexivity.
    + find_in_text.
    + find_in_text.
  - intros Hle. now rewrite (op_le_gt _ _ Hle).
  - intros Hgt. rewrite Hgt. eexists. split; [reflexivity|]. repeat split.
    + exists "Comparison failed: ". eexists.
      rewrite !append_assoc. reflexivity.
    + find_in_text.
    + find_in_text.
Qed.

Lemma TEST_ordering_correct_witness :
  TEST_GREATER_THAN_OR_EQUAL site_outer "n" "5" (ret (S := unit) 5) (ret 5) tt
  = mkRun tt "" (Returned tt)
  /\
  (exists msg,
     TEST_GREATER_THAN_OR_EQUAL site_outer "n" "5" (ret (S := unit) 4) (ret 5) tt
     = mkRun tt "" (Raised (ThrowTestException
          (mkTestException "SuiteTest.cpp" 42 "testOuter" msg)))
     /\ contains "n < 5" msg /\ contains (show 4) msg /\ contains (show 5) msg)
  /\
  TEST_LESS_THAN_OR_EQUAL site_outer "n" "5" (ret (S := unit) 5) (ret 5) tt
  = mkRun tt "" (Returned tt)
  /\
  (exists msg,
     TEST_LESS_THAN_OR_EQUAL site_outer "n" "5" (ret (S := unit) 6) (ret 5) tt
     = mkRun tt "" (Raised (ThrowTestException
          (mkTestException "SuiteTest.cpp" 42 "testOuter" msg)))
     /\ contains "n > 5" msg /\ contains (show 6) msg /\ contains (show 5) msg).
Proof.
  repeat apply conj.
  - apply (proj1 (TEST_ordering_correct site_outer "n" "5" (ret 5) (ret 5) tt
                   (o1 := "") (o2 := "") eq_refl eq_refl)).
    reflexivity.
  - apply (proj1 (proj2 (TEST_ordering_correct site_outer "n" "5" (ret 4) (ret 5) tt
                   (o1 := "") (o2 := "") eq_refl eq_refl))).
    reflexivity.
  - apply (proj1 (proj2 (proj2 (TEST_ordering_correct site_outer "n" "5" (ret 5) (ret 5) tt
                   (o1 := "") (o2 := "") eq_refl eq_refl)))).
    reflexivity.
  - apply (proj2 (proj2 (proj2 (TEST_ordering_correct site_outer "n" "5" (ret 6) (ret 5) tt
                   (o1 := "") (o2 := "") eq_refl eq_refl)))).
    reflexivity.
Defined.

(** ** Which handler takes a TestException *)

(** The handler of a try block that takes an object accepts it, and is not
    one for a class when the object is a [TestException]. *)
Lemma dispatch_TestException (S A : Type)
    (derives : ClassName -> ClassName -> bool) (exc : TestException)
    (hs : list (Handler S A)) :
  forall (i : nat) (body : M S A),
    dispatch derives hs (ThrowTestException exc) = Some (i, body) ->
    (exists k, nth_error hs i = Some (Catch_TestException k) /\ body = k exc)
    \/ nth_error hs i = Some (Catch_all body).
Proof.
  induction hs as [|h hs IH]; intros i body; simpl; [discriminate|].
  destruct h as [k|c k|k]; simpl.
  - intros [= <- <-]. left. now exists k.
  - destruct (dispatch derives hs (ThrowTestException exc)) as [[j b]|];
      [|discriminate].
    intros [= <- <-]. simpl. now apply IH.
  - intros [= <- <-]. now right.
Qed.

(** C4: a thrown [TestException] is accepted by no handler for a class,
    whatever the class hierarchy; the handler of a try block that takes it is
    one written for [TestException] or a [catch (...)].  So it is taken
    neither by the [std::exception] handler of [TEST_THROWS] nor by that of
    [main]: in [TEST_THROWS] the first handler takes it when [ExcClass] is
    [TestException] itself and [catch (...)] otherwise, in [main] the handler
    for [TestException] takes it. *)
Theorem TestException_not_caught_as_class (S : Type)
    (derives : ClassName -> ClassName -> bool) (site : CallSite)
    (exc : TestException) :
  (forall (A : Type) (c : ClassName) (body : string -> M S A),
     handles derives (Catch_class c body) (ThrowTestException exc) = None)
  /\ (forall (A : Type) (hs : list (Handler S A)) (i : nat) (body : M S A),
        dispatch derives hs (ThrowTestException exc) = Some (i, body) ->
        (exists k, nth_error hs i = Some (Catch_TestException k))
        \/ (exists k, nth_error hs i = Some (Catch_all k)))
  /\ selected derives (TEST_THROWS_handlers (S := S) site TestExceptionT)
       (ThrowTestException exc) = Some 0%nat
  /\ (forall c : ClassName,
        selected derives (TEST_THROWS_handlers (S := S) site (ClassT c))
          (ThrowTestException exc) = Some 2%nat)
  /\ selected derives (TEST_MAIN_handlers (S := S)) (ThrowTestException exc)
     = Some 0%nat.
Proof.
  repeat apply conj; try reflexivity.
  intros A hs i body Hd.
  destruct (dispatch_TestException _ _ _ Hd) as [(k & Hk & _)|Hk];
    [left|right]; eauto.
Qed.

Lemma TestException_not_caught_as_class_witness :
  (exists k, nth_error (TEST_THROWS_handlers (S := unit) site_outer
                          (ClassT "std::exception")) 2
             = Some (Catch_TestException k))
  \/ (exists k, nth_error (TEST_THROWS_handlers (S := unit) site_outer
                             (ClassT "std::exception")) 2
                = Some (Catch_all k)).
Proof.
  exact (proj1 (proj2 (TestException_not_caught_as_class unit std_derives site_outer
                         (TestException_at site_inner "boom")))
               unit (TEST_THROWS_handlers site_outer (ClassT "std::exception"))
               2%nat _ eq_refl).
Defined.

(** ** TEST_THROWS_ANY *)

Section Throwing.

Variable S : Type.
Variable derives : ClassName -> ClassName -> bool.
Variable site : CallSite.

Lemma TEST_THROWS_ANY_run {A} (Stmt : M S A) s :
  TEST_THROWS_ANY derives site Stmt s
  = let r := Stmt s in
    mkRun (final r) (printed r)
      (match outcome r with
       | Returned _ =>
           Raised (ThrowTestException
             (TestException_at site "Failed to throw an exception of any type"))
       | Raised (ThrowTestException exc) => Raised (ThrowTestException exc)
       | Raised (ThrowObject _ _) => Returned tt
       end).
Proof.
  unfold TEST_THROWS_ANY, try_catch, bind.
  destruct (Stmt s) as [s1 o1 [a|[exc|cls what]]]; simpl;
    now rewrite ?append_nil_r.
Qed.

Lemma TEST_THROWS_run {A} (Stmt : M S A) (ExcClass : ExcType) s :
  TEST_THROWS derives site Stmt ExcClass s
  = let r := Stmt s in
    let unknown :=
      Raised (ThrowTestException (TestException_at site
        ("An unexpected unknown exception object was thrown, was expecting type "
         ++ type_text ExcClass))) in
    mkRun (final r) (printed r)
      (match outcome r, ExcClass with
       | Returned _, TestExceptionT => Returned tt
       | Returned _, ClassT _ => unknown
       | Raised (ThrowTestException _), TestExceptionT => Returned tt
       | Raised (ThrowTestException _), ClassT _ => unknown
       | Raised (ThrowObject d what), _ =>
           if match ExcClass with
              | TestExceptionT => false
              | ClassT c => is_a derives d c
              end
           then Returned tt
           else if is_a derives d std_exception then
             Raised (ThrowTestException (TestException_at site
               ("An unexpected std::exception descendant was thrown, was expecting type "
                ++ type_text ExcClass ++ ". Exception message is: " ++ what)))
           else unknown
       end).
Proof.
  unfold TEST_THROWS, try_catch, bind.
  destruct (Stmt s) as [s1 o1 [a|[exc|d what]]]; simpl.
  - destruct ExcClass as [|c]; simpl; now rewrite ?append_nil_r.
  - destruct ExcClass as [|c]; simpl; now rewrite ?append_nil_r.
  - destruct ExcClass as [|c]; simpl.
    + destruct (is_a derives d std_exception); simpl; now rewrite ?append_nil_r.
    + destruct (is_a derives d c); simpl; [now rewrite append_nil_r|].
      destruct (is_a derives d std_exception); simpl; now rewrite ?append_nil_r.
Qed.

End Throwing.

(** C1: when [Stmt] throws a [TestException], [TEST_THROWS_ANY] throws that
    same [TestException], all four members unchanged; when [Stmt] throws an
    object of any other type, [TEST_THROWS_ANY] returns normally.  Either way
    the state and the output are the ones [Stmt] left. *)
Theorem TEST_THROWS_ANY_correct (S A : Type)
    (derives : ClassName -> ClassName -> bool) (site : CallSite)
    (Stmt : M S A) (s s1 : S) (o1 : string) :
  (forall exc : TestException,
     Stmt s = mkRun s1 o1 (Raised (ThrowTestException exc)) ->
     TEST_THROWS_ANY derives site Stmt s
     = mkRun s1 o1 (Raised (ThrowTestException exc)))
  /\
  (forall (cls : ClassName) (what : string),
     Stmt s = mkRun s1 o1 (Raised (ThrowObject cls what)) ->
     TEST_THROWS_ANY derives site Stmt s = mkRun s1 o1 (Returned tt)).
Proof.
  split; intros; rewrite TEST_THROWS_ANY_run; now rewrite H.
Qed.

Lemma TEST_THROWS_ANY_correct_witness :
  TEST_THROWS_ANY std_derives site_outer
    (TEST_EQUAL site_inner "i++" "1" post_increment (ret 1)) 0
  = mkRun 1 ""
      (Raised (ThrowTestException (TestException_at site_inner
         ("Equality test failed: i++ != 1 " ++ nl ++ "i++ = 0" ++ nl ++ "1 = 1"))))
  /\
  TEST_THROWS_ANY std_derives site_outer
    (throw (A := unit) (ThrowObject "std::out_of_range" "vector::at")) 0
  = mkRun 0 "" (Returned tt).
Proof.
  split.
  - exact (proj1 (TEST_THROWS_ANY_correct std_derives site_outer
                   (TEST_EQUAL site_inner "i++" "1" post_increment (ret 1)) 0 1 "")
                 _ eq_refl).
  - exact (proj2 (TEST_THROWS_ANY_correct std_derives site_outer
                   (throw (A := unit) (ThrowObject "std::out_of_range" "vector::at"))
                   0 0 "")
                 _ _ eq_refl).
Defined.

(** ** TEST_THROWS *)

(** C2: what [TEST_THROWS] does when [Stmt] throws a [TestException] and
    [ExcClass] is a class: the object goes to [catch (...)], and the macro
    throws a new [TestException] made at its own call site with the
    unknown-object message; the members of the one [Stmt] threw are lost. *)
Theorem TEST_THROWS_nested_TestException (S A : Type)
    (derives : ClassName -> ClassName -> bool) (site : CallSite)
    (Stmt : M S A) (c : ClassName) (s s1 : S) (o1 : string)
    (exc : TestException) :
  Stmt s = mkRun s1 o1 (Raised (ThrowTestException exc)) ->
  TEST_THROWS derives site Stmt (ClassT c) s
  = mkRun s1 o1
      (Raised (ThrowTestException (TestException_at site
         ("An unexpected unknown exception object was thrown, was expecting type "
          ++ c)))).
Proof. intros H. rewrite TEST_THROWS_run. now rewrite H. Qed.

Lemma TEST_THROWS_nested_TestException_witness :
  TEST_THROWS std_derives site_outer
    (TEST_FAIL (S := unit) (A := unit) site_inner (ret "boom"))
    (ClassT "std::runtime_error") tt
  = mkRun tt ""
      (Raised (ThrowTestException
         (mkTestException "SuiteTest.cpp" 42 "testOuter"
            "An unexpected unknown exception object was thrown, was expecting type std::runtime_error"))).
Proof.
  exact (TEST_THROWS_nested_TestException std_derives site_outer
           (TEST_FAIL (S := unit) (A := unit) site_inner (ret "boom"))
           "std::runtime_error" tt
           (exc := TestException_at site_inner "boom") eq_refl).
Defined.

(** C3: what [TEST_THROWS] does, for [ExcClass] a class, when [Stmt] throws
    nothing: the [TestException] with the message [Failed to throw an
    exception of type ...] is thrown inside the try block and goes to
    [catch (...)], so the macro throws a [TestException] with the
    unknown-object message.  When [Stmt] throws an object of another class
    that descends from [std::exception], the message of the [TestException]
    thrown contains the [what()] of the object. *)
Theorem TEST_THROWS_unexpected (S A : Type)
    (derives : ClassName -> ClassName -> bool) (site : CallSite)
    (Stmt : M S A) (c : ClassName) (s s1 : S) (o1 : string) :
  (forall a : A,
     Stmt s = mkRun s1 o1 (Returned a) ->
     TEST_THROWS derives site Stmt (ClassT c) s
     = mkRun s1 o1
         (Raised (ThrowTestException (TestException_at site
            ("An unexpected unknown exception object was thrown, was expecting type "
             ++ c)))))
  /\
  (forall (d : ClassName) (what : string),
     Stmt s = mkRun s1 o1 (Raised (ThrowObject d what)) ->
     is_a derives d c = false ->
     is_a derives d std_exception = true ->
     exists msg,
       TEST_THROWS derives site Stmt (ClassT c) s
       = mkRun s1 o1 (Raised (ThrowTestException (TestException_at site msg)))
       /\ contains what msg).
Proof.
  split.
  - intros a H. rewrite TEST_THROWS_run. now rewrite H.
  - intros d what H Hc Hstd. rewrite TEST_THROWS_run. rewrite H.
    cbn [outcome final printed]. rewrite Hc, Hstd. eexists. split; [reflexivity|]. find_in_text.
Qed.

Lemma TEST_THROWS_unexpected_witness :
  TEST_THROWS std_derives site_outer (ret (S := unit) tt)
    (ClassT "std::runtime_error") tt
  = mkRun tt ""
      (Raised (ThrowTestException
         (mkTestException "SuiteTest.cpp" 42 "testOuter"
            "An unexpected unknown exception object was thrown, was expecting type std::runtime_error")))
  /\
  exists msg,
    TEST_THROWS std_derives site_outer
      (throw (S := unit) (A := unit) (ThrowObject "std::out_of_range" "vector::at"))
      (ClassT "std::runtime_error") tt
    = mkRun tt "" (Raised (ThrowTestException (TestException_at site_outer msg)))
    /\ contains "vector::at" msg.
Proof.
  split.
  - exact (proj1 (TEST_THROWS_unexpected std_derives site_outer (ret tt)
                    "std::runtime_error" tt tt "") tt eq_refl).
  - exact (proj2 (TEST_THROWS_unexpected std_derives site_outer
                    (throw (ThrowObject "std::out_of_range" "vector::at"))
                    "std::runtime_error" tt tt "")
                 "std::out_of_range" "vector::at" eq_refl eq_refl eq_refl).
Defined.

(** The message of [TEST_THROWS] for a statement that throws nothing is not
    the one its try block asks for. *)
Lemma TEST_THROWS_message_differs :
  outcome (TEST_THROWS std_derives site_outer (ret (S := unit) tt)
             (ClassT "std::runtime_error") tt)
  <> Raised (ThrowTestException (TestException_at site_outer
       "Failed to throw an exception of type std::runtime_error")).
Proof. discriminate. Qed.

(** When the object thrown is of the expected class, or of a class derived
    from it, [TEST_THROWS] returns normally. *)
Lemma TEST_THROWS_expected (S A : Type)
    (derives : ClassName -> ClassName -> bool) (site : CallSite)
    (Stmt : M S A) (c d : ClassName) (what : string) (s s1 : S) (o1 : string) :
  Stmt s = mkRun s1 o1 (Raised (ThrowObject d what)) ->
  is_a derives d c = true ->
  TEST_THROWS derives site Stmt (ClassT c) s = mkRun s1 o1 (Returned tt).
Proof. intros H Hc. rewrite TEST_THROWS_run. rewrite H. simpl. now rewrite Hc. Qed.

(** ** The main function *)

Section Main.

Variable S : Type.
Variable derives : ClassName -> ClassName -> bool.
Variable TestName : string.

Lemma main_try_returned (TestCode : M S unit) s s1 o1 u :
  TestCode s = mkRun s1 o1 (Returned u) ->
  try_catch derives (TestCode;; ret None) TEST_MAIN_handlers s
  = mkRun s1 o1 (Returned None).
Proof.
  intros H. apply run_try_returned.
  rewrite <- (append_nil_r o1). eapply run_bind_returned; [exact H|reflexivity].
Qed.

Lemma main_handler_run (body : M S unit) s1 text :
  body s1 = mkRun s1 text (Returned tt) ->
  (body;; ret (Some 1)) s1 = mkRun s1 text (Returned (Some 1)).
Proof.
  intros H. rewrite <- (append_nil_r text).
  eapply run_bind_returned; [exact H|reflexivity].
Qed.

Lemma main_try_raised (TestCode : M S unit) s s1 o1 x :
  TestCode s = mkRun s1 o1 (Raised x) ->
  try_catch derives (TestCode;; ret None) TEST_MAIN_handlers s
  = mkRun s1
      (o1 ++
       match x with
       | ThrowTestException exc =>
           "Test has failed at file " ++ mFileName exc
           ++ ", line " ++ show_int (mLineNumber exc)
           ++ ", function " ++ mFunctionName exc ++ ":" ++ nl
           ++ mMessage exc ++ nl
       | ThrowObject d what =>
           if is_a derives d std_exception
           then "Test has failed, an exception was thrown: " ++ what ++ nl
           else "Test has failed, an unhandled exception was thrown." ++ nl
       end)
      (Returned (Some 1)).
Proof.
  intros H.
  assert (Hblock : (TestCode;; ret (A := option Z) None) s = mkRun s1 o1 (Raised x))
    by now apply run_bind_raised.
  destruct x as [exc|d what].
  - eapply run_try_caught; [exact Hblock|reflexivity|].
    apply main_handler_run, run_print, format_failed_at.
  - destruct (is_a derives d std_exception) eqn:Hstd.
    + eapply run_try_caught; [exact Hblock| |].
      * unfold TEST_MAIN_handlers. cbn [dispatch handles]. rewrite Hstd.
        reflexivity.
      * apply main_handler_run, run_print, format_exception_thrown.
    + eapply run_try_caught; [exact Hblock| |].
      * unfold TEST_MAIN_handlers. cbn [dispatch handles]. rewrite Hstd.
        reflexivity.
      * apply main_handler_run, run_print, format_unhandled.
Qed.

(** A run of [main] in terms of the run of its test code. *)
Lemma IMPLEMENT_TEST_MAIN_run (TestCode : M S unit) (s : S) :
  IMPLEMENT_TEST_MAIN derives TestName TestCode s
  = let r := TestCode s in
    mkRun (final r)
      ("Test started: " ++ TestName ++ nl ++ printed r ++
       match outcome r with
       | Returned _ => "Test finished" ++ nl
       | Raised (ThrowTestException exc) =>
           "Test has failed at file " ++ mFileName exc
           ++ ", line " ++ show_int (mLineNumber exc)
           ++ ", function " ++ mFunctionName exc ++ ":" ++ nl
           ++ mMessage exc ++ nl
       | Raised (ThrowObject d what) =>
           if is_a derives d std_exception
           then "Test has failed, an exception was thrown: " ++ what ++ nl
           else "Test has failed, an unhandled exception was thrown." ++ nl
       end)
      (Returned (match outcome r with Returned _ => 0 | Raised _ => 1 end)).
Proof.
  unfold IMPLEMENT_TEST_MAIN.
  destruct (TestCode s) as [s1 o1 [u|x]] eqn:Hrun; cbn [outcome final printed].
  - transitivity
      (mkRun s1 (("Test started: " ++ TestName ++ nl) ++ o1 ++ "Test finished" ++ nl)
         (Returned 0)); [|now rewrite !append_assoc].
    eapply run_bind_returned; [apply run_print, format_started|].
    eapply run_bind_returned; [exact (main_try_returned _ _ Hrun)|].
    rewrite <- (append_nil_r ("Test finished" ++ nl)).
    eapply run_bind_returned; [apply run_print, format_finished|reflexivity].
  - pose proof (main_try_raised _ _ Hrun) as Htry.
    set (report := match x with
                   | ThrowTestException _ => _
                   | ThrowObject _ _ => _
                   end) in *.
    transitivity
      (mkRun s1 (("Test started: " ++ TestName ++ nl) ++ (o1 ++ report) ++ "")
         (Returned 1)); [|now rewrite append_nil_r, !append_assoc].
    eapply run_bind_returned; [apply run_print, format_started|].
    eapply run_bind_returned; [exact Htry|reflexivity].
Qed.

End Main.

(** C5: [main] always returns, with exit status 0 or 1.  The status is 0
    exactly when the test code ends without an exception, and the output is
    then the start line, the output of the test code and the line
    [Test finished]; the status is 1 exactly when an exception leaves the
    test code.  When that exception is a [TestException], the output ends
    with a report made of its file name, line number, function name and
    message. *)
Theorem IMPLEMENT_TEST_MAIN_exit_status (S : Type)
    (derives : ClassName -> ClassName -> bool) (TestName : string)
    (TestCode : M S unit) (s : S) :
  let r := TestCode s in
  let m := IMPLEMENT_TEST_MAIN derives TestName TestCode s in
  (outcome m = Returned 0 \/ outcome m = Returned 1)
  /\ (outcome m = Returned 0 <-> outcome r = Returned tt)
  /\ (outcome m = Returned 1 <-> exists x, outcome r = Raised x)
  /\ (outcome r = Returned tt ->
      printed m
      = "Test started: " ++ TestName ++ nl ++ printed r ++ "Test finished" ++ nl)
  /\ (forall exc : TestException,
        outcome r = Raised (ThrowTestException exc) ->
        printed m
        = "Test started: " ++ TestName ++ nl ++ printed r
          ++ "Test has failed at file " ++ mFileName exc
          ++ ", line " ++ show_int (mLineNumber exc)
          ++ ", function " ++ mFunctionName exc ++ ":" ++ nl
          ++ mMessage exc ++ nl).
Proof.
  intros r m. subst m. rewrite IMPLEMENT_TEST_MAIN_run. fold r.
  cbn [outcome printed].
  destruct (outcome r) as [[]|x] eqn:Hr; (split; [|split; [|split; [|split]]]).
  - now left.
  - now split.
  - split; [discriminate|]. intros (y & Hy). discriminate.
  - reflexivity.
  - discriminate.
  - now right.
  - split; discriminate.
  - split; [|reflexivity]. intros _. now exists x.
  - discriminate.
  - now intros exc [= ->].
Qed.

Lemma IMPLEMENT_TEST_MAIN_exit_status_witness :
  outcome (IMPLEMENT_TEST_MAIN std_derives "Suite"
             (test_sequence [say "one " tt; say "two " tt; say "three " tt]) tt)
  = Returned 0
  /\
  printed (IMPLEMENT_TEST_MAIN std_derives "Suite"
             (test_sequence [say "one " tt; TEST_FAIL site_inner (ret "boom")]) tt)
  = "Test started: Suite" ++ nl ++ "one "
    ++ "Test has failed at file SuiteTest.cpp, line 17, function testInner:" ++ nl
    ++ "boom" ++ nl.
Proof.
  split.
  - apply (proj1 (proj2 (IMPLEMENT_TEST_MAIN_exit_status std_derives "Suite"
             (test_sequence [say "one " tt; say "two " tt; say "three " tt]) tt))).
    reflexivity.
  - apply (proj2 (proj2 (proj2 (proj2
             (IMPLEMENT_TEST_MAIN_exit_status std_derives "Suite"
                (test_sequence [say "one " tt; TEST_FAIL site_inner (ret "boom")]) tt))))
             (TestException_at site_inner "boom")).
    reflexivity.
Defined.

(** ** Sequences of test cases *)

Lemma test_sequence_fail_fast (S : Type) (test : M S unit) (after : list (M S unit))
    (s2 : S) (o2 : string) (x : Thrown) (before : list (M S unit)) :
  forall (s s1 : S) (o1 : string),
    test_sequence before s = mkRun s1 o1 (Returned tt) ->
    test s1 = mkRun s2 o2 (Raised x) ->
    test_sequence (before ++ test :: after) s = mkRun s2 (o1 ++ o2) (Raised x).
Proof.
  induction before as [|t rest IH]; intros s s1 o1 Hbefore Htest.
  - injection Hbefore as <- <-. simpl. now apply run_bind_raised.
  - simpl in *. unfold bind in Hbefore.
    destruct (t s) as [s' o' [u|y]] eqn:Ht; cbn [outcome final printed] in Hbefore;
      [|discriminate].
    destruct (test_sequence rest s') as [s'' o'' [[]|y]] eqn:Hrest;
      cbn [outcome final printed] in Hbefore; [|discriminate].
    injection Hbefore as <- <-.
    rewrite append_assoc.
    eapply run_bind_returned; [exact Ht|].
    now apply (IH s' s'' o'').
Qed.

(** C6: when the test cases [before] all return and the next one throws,
    [main] ends in the state that test case left, whatever test cases follow
    it: none of them runs.  The output is the start line with the name of the
    suite, then the output of the test cases up to the one that threw, then
    the report of the object it threw, and the exit status is 1. *)
Theorem IMPLEMENT_TEST_MAIN_fail_fast (S : Type)
    (derives : ClassName -> ClassName -> bool) (TestName : string)
    (before after : list (M S unit)) (test : M S unit)
    (s s1 s2 : S) (o1 o2 : string) (x : Thrown) :
  test_sequence before s = mkRun s1 o1 (Returned tt) ->
  test s1 = mkRun s2 o2 (Raised x) ->
  IMPLEMENT_TEST_MAIN derives TestName (test_sequence (before ++ test :: after)) s
  = mkRun s2
      ("Test started: " ++ TestName ++ nl ++ o1 ++ o2 ++
       match x with
       | ThrowTestException exc =>
           "Test has failed at file " ++ mFileName exc
           ++ ", line " ++ show_int (mLineNumber exc)
           ++ ", function " ++ mFunctionName exc ++ ":" ++ nl
           ++ mMessage exc ++ nl
       | ThrowObject d what =>
           if is_a derives d std_exception
           then "Test has failed, an exception was thrown: " ++ what ++ nl
           else "Test has failed, an unhandled exception was thrown." ++ nl
       end)
      (Returned 1).
Proof.
  intros Hbefore Htest. rewrite IMPLEMENT_TEST_MAIN_run.
  rewrite (@test_sequence_fail_fast S test after s2 o2 x before s s1 o1 Hbefore Htest).
  cbn [outcome final printed]. now rewrite append_assoc.
Qed.

Lemma IMPLEMENT_TEST_MAIN_fail_fast_witness :
  IMPLEMENT_TEST_MAIN std_derives "Suite"
    (test_sequence
       ([post_increment;; say "one " tt]
        ++ (post_increment;; say "two " tt;; TEST_FAIL site_inner (ret "boom"))
        :: [post_increment;; say "three " tt])) 0
  = mkRun 2
      ("Test started: Suite" ++ nl ++ "one " ++ "two "
       ++ "Test has failed at file SuiteTest.cpp, line 17, function testInner:" ++ nl
       ++ "boom" ++ nl)
      (Returned 1).
Proof.
  exact (IMPLEMENT_TEST_MAIN_fail_fast std_derives "Suite"
           [post_increment;; say "one " tt]
           [post_increment;; say "three " tt]
           (post_increment;; say "two " tt;; TEST_FAIL site_inner (ret "boom"))
           0 (s1 := 1) (s2 := 2) (o1 := "one ") (o2 := "two ")
           (x := ThrowTestException (TestException_at site_inner "boom"))
           eq_refl eq_refl).
Defined.

(** ** Evaluation of the macro arguments *)

(** Splits on how the run of [m] from [s] ends. *)
Ltac case_run m s :=
  let o := fresh "o" in
  let s' := fresh "s" in
  destruct (m s) as [s' o [?|?]]; cbn [outcome final printed].

Lemma two_operands_in_order (S V W : Type) `{Value V} `{Value W} (site : CallSite)
    (text1 text2 : string) (MSG : M S W) (VAL1 VAL2 : M S V) (s : S)
    (check : M S V -> M S V -> M S unit) :
  In check (two_operand_macros site text1 text2 MSG) ->
  check VAL1 VAL2 s = (v1 <- VAL1;; v2 <- VAL2;; check (ret v1) (ret v2)) s.
Proof.
  intros Hin.
  assert (Hshape : forall (k : V -> V -> M S unit),
            (v1 <- VAL1;; v2 <- VAL2;; k v1 v2) s
            = (v1 <- VAL1;; v2 <- VAL2;;
               (w1 <- ret v1;; w2 <- ret v2;; k w1 w2)) s).
  { intros k. unfold bind, ret. case_run VAL1 s; [|reflexivity].
    case_run VAL2 s0; reflexivity. }
  simpl in Hin.
  destruct Hin as [<-|[<-|[<-|[<-|[<-|[]]]]]]; apply Hshape.
Qed.

(** C10: in each macro with two operands, [VAL1] is evaluated first and
    [VAL2] after it, in the state [VAL1] left, and the comparison comes after
    both.  When [VAL1] throws, [VAL2] is not evaluated.  When both return,
    the output is that of [VAL1], then that of [VAL2], then what the
    comparison of the two values adds, whether the comparison passes or
    not. *)
Theorem two_operand_macros_left_to_right (S V W : Type) `{Value V} `{Value W}
    (site : CallSite) (text1 text2 : string) (MSG : M S W)
    (VAL1 VAL2 : M S V) (s : S) (check : M S V -> M S V -> M S unit) :
  In check (two_operand_macros site text1 text2 MSG) ->
  check VAL1 VAL2 s = (v1 <- VAL1;; v2 <- VAL2;; check (ret v1) (ret v2)) s
  /\
  (forall (s1 : S) (o1 : string) (x : Thrown),
     VAL1 s = mkRun s1 o1 (Raised x) ->
     check VAL1 VAL2 s = mkRun s1 o1 (Raised x))
  /\
  (forall (s1 s2 : S) (o1 o2 : string) (a : V) (x : Thrown),
     VAL1 s = mkRun s1 o1 (Returned a) ->
     VAL2 s1 = mkRun s2 o2 (Raised x) ->
     check VAL1 VAL2 s = mkRun s2 (o1 ++ o2) (Raised x))
  /\
  (forall (s1 s2 : S) (o1 o2 : string) (a b : V),
     VAL1 s = mkRun s1 o1 (Returned a) ->
     VAL2 s1 = mkRun s2 o2 (Returned b) ->
     let r := check (ret a) (ret b) s2 in
     check VAL1 VAL2 s = mkRun (final r) (o1 ++ o2 ++ printed r) (outcome r)).
Proof.
  intros Hin. rewrite (two_operands_in_order VAL1 VAL2 s Hin).
  split; [reflexivity|]. split; [|split].
  - intros s1 o1 x H1. now apply run_bind_raised.
  - intros s1 s2 o1 o2 a x H1 H2.
    eapply run_bind_returned; [exact H1|]. now apply run_bind_raised.
  - intros s1 s2 o1 o2 a b H1 H2 r.
    eapply run_bind_returned; [exact H1|].
    eapply run_bind_returned; [exact H2|].
    subst r. now destruct (check (ret a) (ret b) s2).
Qed.

Lemma two_operand_macros_left_to_right_witness :
  TEST_EQUAL site_outer "f()" "g()"
    (post_increment;; say "first " 1) (post_increment;; say "second " 2) 0
  = mkRun 2 "first second "
      (Raised (ThrowTestException (TestException_at site_outer
         ("Equality test failed: f() != g() " ++ nl ++ "f() = 1" ++ nl ++ "g() = 2")))).
Proof.
  exact (proj2 (proj2 (proj2
           (two_operand_macros_left_to_right
              (site := site_outer) (text1 := "f()") (text2 := "g()")
              (MSG := ret (S := Z) "") (post_increment;; say "first " 1)
              (post_increment;; say "second " 2) 0
              (check := TEST_EQUAL site_outer "f()" "g()")
              (or_intror (or_introl eq_refl)))))
           1 2 "first " "second " 1 2 eq_refl eq_refl).
Defined.

(** [TEST_EQUAL_MSG(1, 1, i++)] passes and leaves [i] as it was: the third
    argument of the macro has not been evaluated, while one evaluation of
    each of the three arguments leaves [i] incremented. *)
Lemma TEST_EQUAL_MSG_message_not_evaluated :
  let check := TEST_EQUAL_MSG site_outer "1" "1" (ret 1) (ret 1) post_increment in
  let once_each := (v1 <- ret 1;; v2 <- ret 1;; m <- post_increment;; ret tt) in
  outcome (check 0) = Returned tt
  /\ final (check 0) = 0
  /\ final (once_each 0) = 1
  /\ effects (check 0) <> effects (once_each 0).
Proof. repeat split. discriminate. Qed.

Lemma comparison_macros_effects (S V : Type) `{Value V} (site : CallSite)
    (text1 text2 : string) (VAL1 VAL2 : M S V) (s : S)
    (check : M S V -> M S V -> M S unit) :
  In check (comparison_macros site text1 text2) ->
  effects (check VAL1 VAL2 s) = effects ((VAL1;; VAL2;; ret tt) s).
Proof.
  intros Hin.
  destruct (VAL1 s) as [s1 o1 [a|x]] eqn:H1.
  - destruct (VAL2 s1) as [s2 o2 [b|x]] eqn:H2.
    + rewrite (run_bind2 _ _ _ H1 H2 (fun _ _ => ret tt) (eq_refl _)).
      rewrite append_nil_r. simpl in Hin.
      destruct Hin as [<-|[<-|[<-|[<-|[]]]]].
      * now rewrite (TEST_EQUAL_run site text1 text2 _ _ _ H1 H2).
      * now rewrite (TEST_NOTEQUAL_run site text1 text2 _ _ _ H1 H2).
      * now rewrite (TEST_GREATER_THAN_OR_EQUAL_run site text1 text2 _ _ _ H1 H2).
      * now rewrite (TEST_LESS_THAN_OR_EQUAL_run site text1 text2 _ _ _ H1 H2).
    + assert (Hseq : forall B (k : V -> V -> M S B),
                (v1 <- VAL1;; v2 <- VAL2;; k v1 v2) s = mkRun s2 (o1 ++ o2) (Raised x)).
      { intros B k. eapply run_bind_returned; [exact H1|].
        now apply run_bind_raised. }
      rewrite (Hseq unit (fun _ _ => ret tt)). simpl in Hin.
      destruct Hin as [<-|[<-|[<-|[<-|[]]]]]; unfold TEST_EQUAL, TEST_NOTEQUAL,
        TEST_GREATER_THAN_OR_EQUAL, TEST_LESS_THAN_OR_EQUAL; now rewrite Hseq.
  - assert (Hseq : forall B (k : V -> M S B), (v1 <- VAL1;; k v1) s = mkRun s1 o1 (Raised x)).
    { intros B k. now apply run_bind_raised. }
    rewrite Hseq. simpl in Hin.
    destruct Hin as [<-|[<-|[<-|[<-|[]]]]]; unfold TEST_EQUAL, TEST_NOTEQUAL,
      TEST_GREATER_THAN_OR_EQUAL, TEST_LESS_THAN_OR_EQUAL; now rewrite Hseq.
Qed.

Lemma TEST_EQUAL_MSG_effects (S V W : Type) `{Value V} `{Value W} (site : CallSite)
    (text1 text2 : string) (VAL1 VAL2 : M S V) (MSG : M S W) (s : S) :
  effects (TEST_EQUAL_MSG site text1 text2 VAL1 VAL2 MSG s)
  = effects ((v1 <- VAL1;; v2 <- VAL2;;
              if op_ne v1 v2 then MSG;; ret tt else ret tt) s).
Proof.
  destruct (VAL1 s) as [s1 o1 [a|x]] eqn:H1.
  - destruct (VAL2 s1) as [s2 o2 [b|x]] eqn:H2.
    + rewrite (TEST_EQUAL_MSG_run site text1 text2 _ _ _ H1 H2).
      pose (k := fun v1 v2 : V => if op_ne v1 v2 then MSG;; ret tt else ret tt).
      change ((v1 <- VAL1;; v2 <- VAL2;;
               if op_ne v1 v2 then MSG;; ret tt else ret tt) s)
        with ((v1 <- VAL1;; v2 <- VAL2;; k v1 v2) s).
      destruct (k a b s2) as [s3 o3 r] eqn:Hk.
      rewrite (run_bind2 _ _ _ H1 H2 k Hk).
      unfold k, bind, ret in Hk. destruct (op_ne a b).
      * destruct (MSG s2) as [s4 o4 [m|x]]; cbn [outcome final printed] in *;
          injection Hk as <- <- <-; unfold effects; cbn [final printed];
          now rewrite ?append_nil_r.
      * injection Hk as <- <- <-. unfold effects. cbn [final printed].
        now rewrite append_nil_r.
    + unfold TEST_EQUAL_MSG, bind. rewrite H1. cbn [outcome final printed].
      now rewrite H2.
  - unfold TEST_EQUAL_MSG, bind. now rewrite H1.
Qed.

(** C8, amended: the state and the output a macro leaves are those of
    evaluating its operands once each, in the order they are written, and
    nothing else: for the four comparison macros both operands, for
    [TEST_TRUE] and [TEST_FALSE] the expression, for [TEST_THROWS] and
    [TEST_THROWS_ANY] the statement, for [TEST_FAIL] the message.  This holds
    whether the macro returns or throws, however often the message text uses
    a value.  In [TEST_EQUAL_MSG] the two operands are evaluated once each,
    and [MSG] once after them when the values differ and not at all when the
    check passes. *)
Theorem macro_arguments_evaluated_once (S : Type)
    (derives : ClassName -> ClassName -> bool) (site : CallSite) (s : S) :
  (forall (V : Type) (HV : Value V) (text1 text2 : string) (VAL1 VAL2 : M S V)
          (check : M S V -> M S V -> M S unit),
     In check (comparison_macros site text1 text2) ->
     effects (check VAL1 VAL2 s) = effects ((VAL1;; VAL2;; ret tt) s))
  /\
  (forall (text : string) (X : M S bool),
     effects (TEST_TRUE site text X s) = effects (X s)
     /\ effects (TEST_FALSE site text X s) = effects (X s))
  /\
  (forall (A : Type) (Stmt : M S A) (ExcClass : ExcType),
     effects (TEST_THROWS derives site Stmt ExcClass s) = effects (Stmt s))
  /\
  (forall (A : Type) (Stmt : M S A),
     effects (TEST_THROWS_ANY derives site Stmt s) = effects (Stmt s))
  /\
  (forall (A : Type) (MSG : M S string),
     effects (TEST_FAIL (A := A) site MSG s) = effects (MSG s))
  /\
  (forall (V W : Type) (HV : Value V) (HW : Value W) (text1 text2 : string)
          (VAL1 VAL2 : M S V) (MSG : M S W),
     effects (TEST_EQUAL_MSG site text1 text2 VAL1 VAL2 MSG s)
     = effects ((v1 <- VAL1;; v2 <- VAL2;;
                 if op_ne v1 v2 then MSG;; ret tt else ret tt) s)).
Proof.
  assert (Hone : forall (X : M S bool) (v : bool),
            effects ((X;; ret v;; ret tt) s) = effects (X s)).
  { intros X v. unfold effects, bind, ret.
    destruct (X s) as [s1 o1 [a|x]]; cbn [outcome final printed];
      now rewrite ?append_nil_r. }
  repeat apply conj.
  - intros V HV text1 text2 VAL1 VAL2 check Hin.
    exact (@comparison_macros_effects S V HV site text1 text2 VAL1 VAL2 s check Hin).
  - intros text X. split.
    + unfold TEST_TRUE.
      rewrite (@comparison_macros_effects S bool _ site text "true" X (ret true) s
                 (TEST_EQUAL site text "true") (or_introl eq_refl)).
      apply Hone.
    + unfold TEST_FALSE.
      rewrite (@comparison_macros_effects S bool _ site text "false" X (ret false) s
                 (TEST_EQUAL site text "false") (or_introl eq_refl)).
      apply Hone.
  - intros A Stmt ExcClass. now rewrite TEST_THROWS_run.
  - intros A Stmt. now rewrite TEST_THROWS_ANY_run.
  - intros A MSG. unfold TEST_FAIL, effects, bind, throw.
    destruct (MSG s) as [s1 o1 [m|x]]; cbn [outcome final printed];
      now rewrite ?append_nil_r.
  - intros V W HV HW text1 text2 VAL1 VAL2 MSG. apply TEST_EQUAL_MSG_effects.
Qed.

Lemma macro_arguments_evaluated_once_witness :
  effects (TEST_NOTEQUAL site_outer "i++" "i++" post_increment post_increment 0)
  = (2, "").
Proof.
  exact (proj1 (macro_arguments_evaluated_once std_derives site_outer 0)
           Z Value_int "i++" "i++" post_increment post_increment
           (TEST_NOTEQUAL site_outer "i++" "i++")
           (or_intror (or_introl eq_refl))).
Defined.


(** * Further properties of the macros *)

(** ** TEST_NOTEQUAL *)

(** For operands evaluating to [a] and [b], [TEST_NOTEQUAL] returns normally
    when [a != b]; when [a == b] it throws a [TestException] made at the call
    site whose message reports [VAL1 == VAL2] by the text of the two
    expressions and contains the value of the first operand. *)
Theorem TEST_NOTEQUAL_correct (S V : Type) `{Value V} (site : CallSite)
    (text1 text2 : string) (VAL1 VAL2 : M S V)
    (s s1 s2 : S) (o1 o2 : string) (a b : V) :
  VAL1 s = mkRun s1 o1 (Returned a) ->
  VAL2 s1 = mkRun s2 o2 (Returned b) ->
  (op_ne a b = true ->
   TEST_NOTEQUAL site text1 text2 VAL1 VAL2 s = mkRun s2 (o1 ++ o2) (Returned tt))
  /\
  (op_eq a b = true ->
   exists msg,
     TEST_NOTEQUAL site text1 text2 VAL1 VAL2 s
     = mkRun s2 (o1 ++ o2) (Raised (ThrowTestException
          (mkTestException (site_file site) (site_line site)
             (site_function site) msg)))
     /\ contains (text1 ++ " == " ++ text2) msg
     /\ contains (show a) msg).
Proof.
  intros H1 H2. rewrite (TEST_NOTEQUAL_run site text1 text2 _ _ _ H1 H2). split.
  - rewrite op_ne_eq. intros Hne. apply negb_true_iff in Hne. now rewrite Hne.
  - intros Heq. rewrite Heq. eexists. split; [reflexivity|]. split.
    + exists "Inequality test failed: ". eexists.
      rewrite !append_assoc. reflexivity.
    + find_in_text.
Qed.

Lemma TEST_NOTEQUAL_correct_witness :
  TEST_NOTEQUAL site_outer "i++" "i" post_increment (fun i => mkRun i "" (Returned i)) 0
  = mkRun 1 "" (Returned tt)
  /\
  exists msg,
    TEST_NOTEQUAL site_outer "i++" "0" post_increment (ret 0) 0
    = mkRun 1 "" (Raised (ThrowTestException
          (mkTestException "SuiteTest.cpp" 42 "testOuter" msg)))
    /\ contains "i++ == 0" msg /\ contains (show 0) msg.
Proof.
  split.
  - apply (proj1 (@TEST_NOTEQUAL_correct Z Z Value_int site_outer "i++" "i" post_increment
                    (fun i => mkRun i "" (Returned i)) 0 1 1 "" "" 0 1
                    eq_refl eq_refl)).
    reflexivity.
  - apply (proj2 (@TEST_NOTEQUAL_correct Z Z Value_int site_outer "i++" "0" post_increment
                    (ret 0) 0 1 1 "" "" 0 0 eq_refl eq_refl)).
    reflexivity.
Defined.

(** ** TEST_EQUAL_MSG *)

(** For operands evaluating to [a] and [b], [TEST_EQUAL_MSG] returns normally
    when [a == b], whatever [MSG] is.  When [a != b] and [MSG] evaluates to
    [m], it throws a [TestException] made at the call site whose message
    contains the text of both expressions, [m] and both values; when [MSG]
    throws instead, what [MSG] threw leaves the macro. *)
Theorem TEST_EQUAL_MSG_correct (S V W : Type) `{Value V} `{Value W}
    (site : CallSite) (text1 text2 : string) (VAL1 VAL2 : M S V) (MSG : M S W)
    (s s1 s2 : S) (o1 o2 : string) (a b : V) :
  VAL1 s = mkRun s1 o1 (Returned a) ->
  VAL2 s1 = mkRun s2 o2 (Returned b) ->
  (op_eq a b = true ->
   TEST_EQUAL_MSG site text1 text2 VAL1 VAL2 MSG s
   = mkRun s2 (o1 ++ o2) (Returned tt))
  /\
  (op_ne a b = true ->
   forall (s3 : S) (o3 : string) (m : W),
     MSG s2 = mkRun s3 o3 (Returned m) ->
     exists msg,
       TEST_EQUAL_MSG site text1 text2 VAL1 VAL2 MSG s
       = mkRun s3 (o1 ++ o2 ++ o3)
           (Raised (ThrowTestException
          (mkTestException (site_file site) (site_line site)
             (site_function site) msg)))
       /\ contains text1 msg /\ contains text2 msg /\ contains (show m) msg
       /\ contains (show a) msg /\ contains (show b) msg)
  /\
  (op_ne a b = true ->
   forall (s3 : S) (o3 : string) (x : Thrown),
     MSG s2 = mkRun s3 o3 (Raised x) ->
     TEST_EQUAL_MSG site text1 text2 VAL1 VAL2 MSG s
     = mkRun s3 (o1 ++ o2 ++ o3) (Raised x)).
Proof.
  intros H1 H2. rewrite (TEST_EQUAL_MSG_run site text1 text2 _ _ _ H1 H2).
  split; [|split].
  - intros Heq. rewrite op_ne_eq, Heq. reflexivity.
  - intros Hne s3 o3 m Hm. rewrite Hne, Hm. cbn [outcome final printed].
    eexists. split; [reflexivity|]. repeat split; find_in_text.
  - intros Hne s3 o3 x Hm. now rewrite Hne, Hm.
Qed.

Lemma TEST_EQUAL_MSG_correct_witness :
  TEST_EQUAL_MSG site_outer "i++" "0" post_increment (ret 0) (say "ctx " "round 1") 0
  = mkRun 1 "" (Returned tt)
  /\
  (exists msg,
     TEST_EQUAL_MSG site_outer "i++" "1" post_increment (ret 1)
       (say "ctx " "round 1") 0
     = mkRun 1 "ctx " (Raised (ThrowTestException
          (mkTestException "SuiteTest.cpp" 42 "testOuter" msg)))
     /\ contains "i++" msg /\ contains "1" msg /\ contains "round 1" msg
     /\ contains (show 0) msg /\ contains (show 1) msg)
  /\
  TEST_EQUAL_MSG site_outer "i++" "1" post_increment (ret 1)
    (throw (A := string) (ThrowObject "std::bad_alloc" "out of memory")) 0
  = mkRun 1 "" (Raised (ThrowObject "std::bad_alloc" "out of memory")).
Proof.
  split; [|split].
  - apply (proj1 (@TEST_EQUAL_MSG_correct Z Z string Value_int Value_string site_outer "i++" "0"
                    post_increment (ret 0) (say "ctx " "round 1")
                    0 1 1 "" "" 0 0 eq_refl eq_refl)).
    reflexivity.
  - apply (proj1 (proj2 (@TEST_EQUAL_MSG_correct Z Z string Value_int Value_string site_outer "i++" "1"
                    post_increment (ret 1) (say "ctx " "round 1")
                    0 1 1 "" "" 0 1 eq_refl eq_refl))
                 eq_refl 1 "ctx " "round 1" eq_refl).
  - apply (proj2 (proj2 (@TEST_EQUAL_MSG_correct Z Z string Value_int Value_string site_outer "i++" "1"
                    post_increment (ret 1)
                    (throw (ThrowObject "std::bad_alloc" "out of memory"))
                    0 1 1 "" "" 0 1 eq_refl eq_refl))
                 eq_refl 1 "" (ThrowObject "std::bad_alloc" "out of memory") eq_refl).
Defined.

(** ** TEST_TRUE and TEST_FALSE *)

(** For an expression evaluating to the [bool] [v], [TEST_TRUE] returns
    normally when [v] is [true] and [TEST_FALSE] when [v] is [false]; in the
    other case each throws a [TestException] made at the call site, with the
    message of [TEST_EQUAL] for the expression against the literal [true]
    (resp. [false]).  The state and the output are those the expression
    left. *)
Theorem TEST_TRUE_FALSE_correct (S : Type) (site : CallSite) (text : string)
    (X : M S bool) (s s1 : S) (o1 : string) (v : bool) :
  X s = mkRun s1 o1 (Returned v) ->
  TEST_TRUE site text X s
  = mkRun s1 o1
      (if v then Returned tt
       else Raised (ThrowTestException
         (mkTestException (site_file site) (site_line site) (site_function site)
              ("Equality test failed: " ++ text ++ " != true " ++ nl
               ++ text ++ " = false" ++ nl ++ "true = true"))))
  /\
  TEST_FALSE site text X s
  = mkRun s1 o1
      (if v then
         Raised (ThrowTestException
         (mkTestException (site_file site) (site_line site) (site_function site)
           ("Equality test failed: " ++ text ++ " != false " ++ nl
            ++ text ++ " = true" ++ nl ++ "false = false")))
       else Returned tt).
Proof.
  intros HX. unfold TEST_TRUE, TEST_FALSE.
  rewrite (TEST_EQUAL_run site text "true" X (ret true) s HX (eq_refl _)).
  rewrite (TEST_EQUAL_run site text "false" X (ret false) s HX (eq_refl _)).
  rewrite append_nil_r. now destruct v.
Qed.

Lemma TEST_TRUE_FALSE_correct_witness :
  TEST_TRUE site_outer "i++ == 0" (i <- post_increment;; ret (i =? 0)) 0
  = mkRun 1 "" (Returned tt)
  /\
  TEST_FALSE site_outer "i++ == 0" (i <- post_increment;; ret (i =? 0)) 0
  = mkRun 1 ""
      (Raised (ThrowTestException (mkTestException "SuiteTest.cpp" 42 "testOuter"
         ("Equality test failed: i++ == 0 != false " ++ nl
          ++ "i++ == 0 = true" ++ nl ++ "false = false")))).
Proof.
  exact (@TEST_TRUE_FALSE_correct Z site_outer "i++ == 0"
           (i <- post_increment;; ret (i =? 0)) 0 1 "" true eq_refl).
Defined.

(** ** TEST_FAIL *)

(** [TEST_FAIL] never returns.  When [MSG] evaluates to [msg] it throws a
    [TestException] holding the file, line and function of the call site and
    [msg] itself as the message; when [MSG] throws, what it threw leaves the
    macro. *)
Theorem TEST_FAIL_correct (S A : Type) (site : CallSite) (MSG : M S string)
    (s : S) :
  (forall a : A, outcome (TEST_FAIL (A := A) site MSG s) <> Returned a)
  /\
  (forall (s1 : S) (o1 msg : string),
     MSG s = mkRun s1 o1 (Returned msg) ->
     TEST_FAIL (A := A) site MSG s
     = mkRun s1 o1
         (Raised (ThrowTestException
            (mkTestException (site_file site) (site_line site)
               (site_function site) msg))))
  /\
  (forall (s1 : S) (o1 : string) (x : Thrown),
     MSG s = mkRun s1 o1 (Raised x) ->
     TEST_FAIL (A := A) site MSG s = mkRun s1 o1 (Raised x)).
Proof.
  split; [|split].
  - intros a. unfold TEST_FAIL, bind, throw.
    destruct (MSG s) as [s1 o1 [m|x]]; cbn [outcome final printed]; discriminate.
  - intros s1 o1 msg HM. unfold TEST_FAIL.
    rewrite <- (append_nil_r o1) at 1.
    eapply run_bind_returned; [exact HM|reflexivity].
  - intros s1 o1 x HM. now apply run_bind_raised.
Qed.

Lemma TEST_FAIL_correct_witness :
  TEST_FAIL (A := unit) site_inner (say "building " "not reached") 0
  = mkRun 0 "building "
      (Raised (ThrowTestException
         (mkTestException "SuiteTest.cpp" 17 "testInner" "not reached"))).
Proof.
  exact (proj1 (proj2 (@TEST_FAIL_correct Z unit site_inner
                         (say "building " "not reached") 0))
               0 "building " "not reached" eq_refl).
Defined.

(** ** When TEST_THROWS passes *)

(** For [ExcClass] a class [c], [TEST_THROWS] returns normally exactly when
    [Stmt] throws an object whose class is [c] or derives from [c]. *)
Theorem TEST_THROWS_passes_iff (S A : Type)
    (derives : ClassName -> ClassName -> bool) (site : CallSite)
    (Stmt : M S A) (c : ClassName) (s : S) :
  outcome (TEST_THROWS derives site Stmt (ClassT c) s) = Returned tt
  <->
  exists (d : ClassName) (what : string),
    outcome (Stmt s) = Raised (ThrowObject d what) /\ is_a derives d c = true.
Proof.
  rewrite TEST_THROWS_run. cbv zeta.
  destruct (Stmt s) as [s1 o1 [a|[exc|d what]]]; cbn [outcome final printed].
  - split; [discriminate|]. intros (d & w & Hd & _). discriminate.
  - split; [discriminate|]. intros (d & w & Hd & _). discriminate.
  - destruct (is_a derives d c) eqn:Hc.
    + split; [|reflexivity]. intros _. now exists d, what.
    + split.
      * destruct (is_a derives d std_exception); discriminate.
      * intros (d' & w' & [= <- <-] & Hd'). congruence.
Qed.

Lemma TEST_THROWS_passes_iff_witness :
  outcome (TEST_THROWS std_derives site_outer
             (throw (S := unit) (A := unit)
                (ThrowObject "std::out_of_range" "vector::at"))
             (ClassT "std::exception") tt)
  = Returned tt.
Proof.
  apply (proj2 (@TEST_THROWS_passes_iff unit unit std_derives site_outer
                  (throw (ThrowObject "std::out_of_range" "vector::at"))
                  "std::exception" tt)).
  exists "std::out_of_range", "vector::at". split; reflexivity.
Defined.

(** Whatever [Stmt] does and whatever type is expected, [TEST_THROWS] either
    returns normally or throws a [TestException] made at its own call site,
    whose message names the expected type: no object thrown by [Stmt] leaves
    the macro. *)
Theorem TEST_THROWS_failure_at_call_site (S A : Type)
    (derives : ClassName -> ClassName -> bool) (site : CallSite)
    (Stmt : M S A) (ExcClass : ExcType) (s : S) :
  outcome (TEST_THROWS derives site Stmt ExcClass s) = Returned tt
  \/
  exists msg : string,
    outcome (TEST_THROWS derives site Stmt ExcClass s)
    = Raised (ThrowTestException
        (mkTestException (site_file site) (site_line site)
           (site_function site) msg))
    /\ contains (type_text ExcClass) msg.
Proof.
  rewrite TEST_THROWS_run. cbv zeta.
  assert (Hunknown :
    exists msg : string,
      Raised (A := unit) (ThrowTestException (TestException_at site
        ("An unexpected unknown exception object was thrown, was expecting type "
         ++ type_text ExcClass)))
      = Raised (ThrowTestException
          (mkTestException (site_file site) (site_line site)
             (site_function site) msg))
      /\ contains (type_text ExcClass) msg).
  { eexists. split; [reflexivity|]. find_in_text. }
  destruct (Stmt s) as [s1 o1 [a|[exc|d what]]]; cbn [outcome final printed].
  - destruct ExcClass; [now left|now right].
  - destruct ExcClass; [now left|now right].
  - destruct (match ExcClass with
              | TestExceptionT => false
              | ClassT c => is_a derives d c
              end); [now left|right].
    destruct (is_a derives d std_exception); [|exact Hunknown].
    eexists. split; [reflexivity|]. find_in_text.
Qed.

(** With [TestException] as the expected type, [TEST_THROWS] returns normally
    exactly when [Stmt] throws a [TestException] or throws nothing at all:
    the [TestException] the macro throws after [Stmt] is taken by its first
    handler. *)
Theorem TEST_THROWS_expecting_TestException (S A : Type)
    (derives : ClassName -> ClassName -> bool) (site : CallSite)
    (Stmt : M S A) (s : S) :
  outcome (TEST_THROWS derives site Stmt TestExceptionT s) = Returned tt
  <->
  (exists a : A, outcome (Stmt s) = Returned a)
  \/ (exists exc : TestException, outcome (Stmt s) = Raised (ThrowTestException exc)).
Proof.
  rewrite TEST_THROWS_run. cbv zeta.
  destruct (Stmt s) as [s1 o1 [a|[exc|d what]]]; cbn [outcome final printed].
  - split; [|reflexivity]. intros _. left. now exists a.
  - split; [|reflexivity]. intros _. right. now exists exc.
  - split.
    + destruct (is_a derives d std_exception); discriminate.
    + intros [(a & Ha)|(exc & He)]; discriminate.
Qed.

Lemma TEST_THROWS_expecting_TestException_witness :
  outcome (TEST_THROWS std_derives site_outer (ret (S := unit) tt) TestExceptionT tt)
  = Returned tt.
Proof.
  apply (proj2 (@TEST_THROWS_expecting_TestException unit unit std_derives
                  site_outer (ret tt) tt)).
  left. now exists tt.
Defined.

(** ** When TEST_THROWS_ANY passes *)

(** [TEST_THROWS_ANY] returns normally exactly when [Stmt] throws an object
    that is not a [TestException], whatever the class hierarchy.  When [Stmt]
    throws nothing, the macro throws a [TestException] made at its call site
    with the message [Failed to throw an exception of any type]. *)
Theorem TEST_THROWS_ANY_passes_iff (S A : Type)
    (derives : ClassName -> ClassName -> bool) (site : CallSite)
    (Stmt : M S A) (s : S) :
  (outcome (TEST_THROWS_ANY derives site Stmt s) = Returned tt
   <->
   exists (d : ClassName) (what : string),
     outcome (Stmt s) = Raised (ThrowObject d what))
  /\
  (forall (s1 : S) (o1 : string) (a : A),
     Stmt s = mkRun s1 o1 (Returned a) ->
     TEST_THROWS_ANY derives site Stmt s
     = mkRun s1 o1
         (Raised (ThrowTestException
            (mkTestException (site_file site) (site_line site)
               (site_function site) "Failed to throw an exception of any type")))).
Proof.
  rewrite TEST_THROWS_ANY_run. cbv zeta. split.
  - destruct (Stmt s) as [s1 o1 [a|[exc|d what]]]; cbn [outcome final printed].
    + split; [discriminate|]. intros (d & w & Hd). discriminate.
    + split; [discriminate|]. intros (d & w & Hd). discriminate.
    + split; [|reflexivity]. intros _. now exists d, what.
  - intros s1 o1 a HS. now rewrite HS.
Qed.

Lemma TEST_THROWS_ANY_passes_iff_witness :
  TEST_THROWS_ANY std_derives site_outer (say (S := unit) "quiet " 7) tt
  = mkRun tt "quiet "
      (Raised (ThrowTestException
         (mkTestException "SuiteTest.cpp" 42 "testOuter"
            "Failed to throw an exception of any type"))).
Proof.
  exact (proj2 (@TEST_THROWS_ANY_passes_iff unit Z std_derives site_outer
                  (say "quiet " 7) tt)
               tt "quiet " 7 eq_refl).
Defined.

(** ** The main function and other exceptions *)

(** When the test code throws an object that is not a [TestException],
    [main] ends in the state the test code left with exit status 1; after the
    start line and the output of the test code it prints the [what()] of the
    object when its class is [std::exception] or derives from it, and the
    notice for an unhandled exception otherwise. *)
Theorem IMPLEMENT_TEST_MAIN_other_exception (S : Type)
    (derives : ClassName -> ClassName -> bool) (TestName : string)
    (TestCode : M S unit) (s s1 : S) (o1 : string)
    (d : ClassName) (what : string) :
  TestCode s = mkRun s1 o1 (Raised (ThrowObject d what)) ->
  IMPLEMENT_TEST_MAIN derives TestName TestCode s
  = mkRun s1
      ("Test started: " ++ TestName ++ nl ++ o1 ++
       (if is_a derives d std_exception
        then "Test has failed, an exception was thrown: " ++ what ++ nl
        else "Test has failed, an unhandled exception was thrown." ++ nl))
      (Returned 1).
Proof. intros HT. rewrite IMPLEMENT_TEST_MAIN_run. now rewrite HT. Qed.

Lemma IMPLEMENT_TEST_MAIN_other_exception_witness :
  IMPLEMENT_TEST_MAIN std_derives "Suite"
    (say "one " tt;; throw (ThrowObject "std::out_of_range" "vector::at")) tt
  = mkRun tt
      ("Test started: Suite" ++ nl ++ "one "
       ++ "Test has failed, an exception was thrown: vector::at" ++ nl)
      (Returned 1)
  /\
  IMPLEMENT_TEST_MAIN std_derives "Suite"
    (say "one " tt;; throw (ThrowObject "int" "")) tt
  = mkRun tt
      ("Test started: Suite" ++ nl ++ "one "
       ++ "Test has failed, an unhandled exception was thrown." ++ nl)
      (Returned 1).
Proof.
  split.
  - exact (@IMPLEMENT_TEST_MAIN_other_exception unit std_derives "Suite"
             (say "one " tt;; throw (ThrowObject "std::out_of_range" "vector::at"))
             tt tt "one " "std::out_of_range" "vector::at" eq_refl).
  - exact (@IMPLEMENT_TEST_MAIN_other_exception unit std_derives "Suite"
             (say "one " tt;; throw (ThrowObject "int" ""))
             tt tt "one " "int" "" eq_refl).
Defined.

(** A sequence of test cases each of which returns normally, from whatever
    state it is started in, returns normally. *)
Lemma test_sequence_all_return (S : Type) (tests : list (M S unit)) :
  (forall test, In test tests ->
     forall s : S, exists s' o, test s = mkRun s' o (Returned tt)) ->
  forall s : S, exists s' o, test_sequence tests s = mkRun s' o (Returned tt).
Proof.
  induction tests as [|t rest IH]; intros Hall s.
  - now exists s, "".
  - destruct (Hall t (or_introl eq_refl) s) as (s1 & o1 & Ht).
    destruct (IH (fun test Hin => Hall test (or_intror Hin)) s1) as (s2 & o2 & Hrest).
    exists s2, (o1 ++ o2). simpl.
    eapply run_bind_returned; [exact Ht|exact Hrest].
Qed.

(** When every test case of the sequence returns normally from whatever
    state it is started in, [main] runs them all and returns exit status 0;
    its output is the start line, the output of the test cases and the line
    [Test finished]. *)
Theorem IMPLEMENT_TEST_MAIN_all_pass (S : Type)
    (derives : ClassName -> ClassName -> bool) (TestName : string)
    (tests : list (M S unit)) (s : S) :
  (forall test, In test tests ->
     forall s0 : S, exists s' o, test s0 = mkRun s' o (Returned tt)) ->
  IMPLEMENT_TEST_MAIN derives TestName (test_sequence tests) s
  = mkRun (final (test_sequence tests s))
      ("Test started: " ++ TestName ++ nl ++ printed (test_sequence tests s)
       ++ "Test finished" ++ nl)
      (Returned 0).
Proof.
  intros Hall. rewrite IMPLEMENT_TEST_MAIN_run.
  destruct (test_sequence_all_return tests Hall s) as (s' & o & Hrun).
  now rewrite Hrun.
Qed.

Lemma IMPLEMENT_TEST_MAIN_all_pass_witness :
  IMPLEMENT_TEST_MAIN std_derives "Suite"
    (test_sequence [post_increment;; say "one " tt;
                    post_increment;; say "two " tt;
                    post_increment;; say "three " tt]) 0
  = mkRun 3 ("Test started: Suite" ++ nl ++ "one two three " ++ "Test finished" ++ nl)
      (Returned 0).
Proof.
  apply (@IMPLEMENT_TEST_MAIN_all_pass Z std_derives "Suite"
           [post_increment;; say "one " tt;
            post_increment;; say "two " tt;
            post_increment;; say "three " tt] 0).
  intros test [<-|[<-|[<-|[]]]] s0; eexists; eexists; reflexivity.
Defined.

(** [main] around one [TEST_THROWS] for a class [c]: the exit status is 0
    exactly when [Stmt] throws an object whose class is [c] or derives from
    [c]; in every other case it is 1 and the output holds the report of a
    failure at the file, line and function of the [TEST_THROWS] call. *)
Theorem IMPLEMENT_TEST_MAIN_TEST_THROWS (S A : Type)
    (derives : ClassName -> ClassName -> bool) (TestName : string)
    (site : CallSite) (Stmt : M S A) (c : ClassName) (s : S) :
  let m := IMPLEMENT_TEST_MAIN derives TestName
             (TEST_THROWS derives site Stmt (ClassT c)) s in
  let expected :=
    exists (d : ClassName) (what : string),
      outcome (Stmt s) = Raised (ThrowObject d what) /\ is_a derives d c = true in
  (outcome m = Returned 0 <-> expected)
  /\
  (~ expected ->
   outcome m = Returned 1
   /\ contains ("Test has failed at file " ++ site_file site
                ++ ", line " ++ show_int (site_line site)
                ++ ", function " ++ site_function site ++ ":" ++ nl)
        (printed m)).
Proof.
  intros m expected. subst m expected.
  rewrite IMPLEMENT_TEST_MAIN_run, TEST_THROWS_run. cbv zeta.
  cbn [outcome final printed].
  assert (Hreport : forall before msg,
            contains ("Test has failed at file " ++ site_file site
                      ++ ", line " ++ show_int (site_line site)
                      ++ ", function " ++ site_function site ++ ":" ++ nl)
              ("Test started: " ++ TestName ++ nl ++ before ++
               "Test has failed at file " ++ mFileName (TestException_at site msg)
               ++ ", line " ++ show_int (mLineNumber (TestException_at site msg))
               ++ ", function " ++ mFunctionName (TestException_at site msg)
               ++ ":" ++ nl ++ mMessage (TestException_at site msg) ++ nl)).
  { intros before msg. cbn [mFileName mLineNumber mFunctionName mMessage
                              TestException_at].
    exists ("Test started: " ++ TestName ++ nl ++ before). eexists.
    rewrite !append_assoc. reflexivity. }
  destruct (Stmt s) as [s1 o1 [a|[exc|d what]]]; cbn [outcome final printed].
  - split.
    + split; [discriminate|]. intros (d & w & Hd & _). discriminate.
    + intros _. split; [reflexivity|]. apply Hreport.
  - split.
    + split; [discriminate|]. intros (d & w & Hd & _). discriminate.
    + intros _. split; [reflexivity|]. apply Hreport.
  - destruct (is_a derives d c) eqn:Hc.
    + split.
      * split; [|reflexivity]. intros _. now exists d, what.
      * intros Hnot. exfalso. apply Hnot. now exists d, what.
    + assert (Hno : ~ exists (d' : ClassName) (w' : string),
                Raised (A := A) (ThrowObject d what) = Raised (ThrowObject d' w')
                /\ is_a derives d' c = true).
      { intros (d' & w' & [= <- <-] & Hd'). congruence. }
      destruct (is_a derives d std_exception); split.
      * split; [discriminate|]. intros He. now destruct (Hno He).
      * intros _. split; [reflexivity|]. apply Hreport.
      * split; [discriminate|]. intros He. now destruct (Hno He).
      * intros _. split; [reflexivity|]. apply Hreport.
Qed.

Lemma IMPLEMENT_TEST_MAIN_TEST_THROWS_witness :
  outcome (IMPLEMENT_TEST_MAIN std_derives "Suite"
             (TEST_THROWS std_derives site_outer
                (throw (S := unit) (A := unit)
                   (ThrowObject "std::overflow_error" "too big"))
                (ClassT "std::runtime_error")) tt)
  = Returned 0
  /\
  outcome (IMPLEMENT_TEST_MAIN std_derives "Suite"
             (TEST_THROWS std_derives site_outer (ret (S := unit) tt)
                (ClassT "std::runtime_error")) tt)
  = Returned 1.
Proof.
  split.
  - apply (proj2 (proj1 (@IMPLEMENT_TEST_MAIN_TEST_THROWS unit unit std_derives
                           "Suite" site_outer
                           (throw (ThrowObject "std::overflow_error" "too big"))
                           "std::runtime_error" tt))).
    exists "std::overflow_error", "too big". split; reflexivity.
  - apply (proj2 (@IMPLEMENT_TEST_MAIN_TEST_THROWS unit unit std_derives
                    "Suite" site_outer (ret tt) "std::runtime_error" tt)).
    intros (d & w & Hd & _). discriminate.
Defined.

(** ** How the comparison macros relate *)

(** On operands evaluating to the same two values, exactly one of
    [TEST_EQUAL] and [TEST_NOTEQUAL] returns normally, and the other one
    throws a [TestException] made at its call site. *)
Theorem TEST_EQUAL_NOTEQUAL_complementary (S V : Type) `{Value V}
    (site : CallSite) (text1 text2 : string) (VAL1 VAL2 : M S V)
    (s s1 s2 : S) (o1 o2 : string) (a b : V) :
  VAL1 s = mkRun s1 o1 (Returned a) ->
  VAL2 s1 = mkRun s2 o2 (Returned b) ->
  (outcome (TEST_EQUAL site text1 text2 VAL1 VAL2 s) = Returned tt
   /\ exists msg,
        outcome (TEST_NOTEQUAL site text1 text2 VAL1 VAL2 s)
        = Raised (ThrowTestException
            (mkTestException (site_file site) (site_line site)
               (site_function site) msg)))
  \/
  (outcome (TEST_NOTEQUAL site text1 text2 VAL1 VAL2 s) = Returned tt
   /\ exists msg,
        outcome (TEST_EQUAL site text1 text2 VAL1 VAL2 s)
        = Raised (ThrowTestException
            (mkTestException (site_file site) (site_line site)
               (site_function site) msg))).
Proof.
  intros H1 H2.
  rewrite (TEST_EQUAL_run site text1 text2 _ _ _ H1 H2).
  rewrite (TEST_NOTEQUAL_run site text1 text2 _ _ _ H1 H2).
  cbn [outcome]. rewrite op_ne_eq.
  destruct (op_eq a b); cbn [negb]; [left|right]; (split; [reflexivity|]);
    eexists; reflexivity.
Qed.

Lemma TEST_EQUAL_NOTEQUAL_complementary_witness :
  (outcome (TEST_EQUAL site_outer "i++" "0" post_increment (ret 0) 0) = Returned tt
   /\ exists msg,
        outcome (TEST_NOTEQUAL site_outer "i++" "0" post_increment (ret 0) 0)
        = Raised (ThrowTestException
            (mkTestException "SuiteTest.cpp" 42 "testOuter" msg)))
  \/
  (outcome (TEST_NOTEQUAL site_outer "i++" "0" post_increment (ret 0) 0) = Returned tt
   /\ exists msg,
        outcome (TEST_EQUAL site_outer "i++" "0" post_increment (ret 0) 0)
        = Raised (ThrowTestException
            (mkTestException "SuiteTest.cpp" 42 "testOuter" msg))).
Proof.
  exact (@TEST_EQUAL_NOTEQUAL_complementary Z Z Value_int site_outer "i++" "0"
           post_increment (ret 0) 0 1 1 "" "" 0 0 eq_refl eq_refl).
Defined.

(** For [int] operands, [TEST_GREATER_THAN_OR_EQUAL] and
    [TEST_LESS_THAN_OR_EQUAL] both return normally exactly when [TEST_EQUAL]
    does, and one of the two always returns normally. *)
Theorem TEST_ordering_int (S : Type) (site : CallSite) (text1 text2 : string)
    (Stmt Val : M S Z) (s s1 s2 : S) (o1 o2 : string) (a b : Z) :
  Stmt s = mkRun s1 o1 (Returned a) ->
  Val s1 = mkRun s2 o2 (Returned b) ->
  ((outcome (TEST_GREATER_THAN_OR_EQUAL site text1 text2 Stmt Val s) = Returned tt
    /\ outcome (TEST_LESS_THAN_OR_EQUAL site text1 text2 Stmt Val s) = Returned tt)
   <-> outcome (TEST_EQUAL site text1 text2 Stmt Val s) = Returned tt)
  /\
  (outcome (TEST_GREATER_THAN_OR_EQUAL site text1 text2 Stmt Val s) = Returned tt
   \/ outcome (TEST_LESS_THAN_OR_EQUAL site text1 text2 Stmt Val s) = Returned tt).
Proof.
  intros H1 H2.
  rewrite (TEST_GREATER_THAN_OR_EQUAL_run site text1 text2 _ _ _ H1 H2).
  rewrite (TEST_LESS_THAN_OR_EQUAL_run site text1 text2 _ _ _ H1 H2).
  rewrite (TEST_EQUAL_run site text1 text2 _ _ _ H1 H2).
  cbn [outcome op_lt op_gt op_ne Value_int].
  rewrite Z.gtb_ltb.
  destruct (Z.ltb_spec a b), (Z.ltb_spec b a), (Z.eqb_spec a b);
    cbn [negb]; try lia; (split; [split|]);
    try (intros [? ?]); try discriminate; auto.
Qed.

Lemma TEST_ordering_int_witness :
  outcome (TEST_GREATER_THAN_OR_EQUAL site_outer "i++" "1" post_increment (ret 1) 0)
  = Returned tt
  \/ outcome (TEST_LESS_THAN_OR_EQUAL site_outer "i++" "1" post_increment (ret 1) 0)
     = Returned tt.
Proof.
  exact (proj2 (@TEST_ordering_int Z site_outer "i++" "1" post_increment (ret 1)
                  0 1 1 "" "" 0 1 eq_refl eq_refl)).
Defined.
